(** * RIS full workflow: a shallow embedding of [ris_full_workflow.py]

    The script drives a radiology information system through its GUI.  The
    pure parts (text escaping, date and count parsing, response clean-up) are
    embedded as functions on Python strings; the effectful parts (retry loops,
    the inference client, the orchestrator) are embedded as functions from an
    explicit description of what the environment answers to the trace of
    actions the script performs. *)

From Stdlib Require Import String Ascii DecimalString DecimalPos.
From Stdlib Require Import ZArith NArith Bool Lia List.
Import ListNotations.

(* ================================================================== *)
(** ** Python strings *)
(* ================================================================== *)

(** A Python [str] is a sequence of Unicode code points. *)
Definition char := N.
Definition pystr := list char.

Definition chr (a : ascii) : char := N_of_ascii a.
Arguments chr _%_char.

(** [str "abc"] is the Python literal ["abc"] (ASCII literals only). *)
Definition str (s : string) : pystr := map N_of_ascii (list_ascii_of_string s).
Arguments str _%_string.

Definition LF : char := 10%N.
Definition CR : char := 13%N.

Module PyStr.

Local Open Scope N_scope.

Fixpoint eqb (a b : pystr) : bool :=
  match a, b with
  | [], [] => true
  | x :: a', y :: b' => (x =? y) && eqb a' b'
  | _, _ => false
  end.

(** [s.startswith(p)] *)
Fixpoint startswith (p s : pystr) : bool :=
  match p, s with
  | [], _ => true
  | _ :: _, [] => false
  | a :: p', b :: s' => (a =? b) && startswith p' s'
  end.

(** [sub in s] *)
Fixpoint contains (sub s : pystr) : bool :=
  startswith sub s ||
  match s with
  | [] => false
  | _ :: s' => contains sub s'
  end.

(** [s.replace(old, new)] for a non-empty [old]: scan from the left, replace
    each occurrence and resume after it.  [skip] counts the characters of the
    occurrence just replaced that are still to be passed over. *)
Fixpoint replace_from (skip : nat) (old new s : pystr) : pystr :=
  match s with
  | [] => []
  | c :: s' =>
      match skip with
      | S k => replace_from k old new s'
      | O =>
          if startswith old s
          then new ++ replace_from (length old - 1) old new s'
          else c :: replace_from 0 old new s'
      end
  end.

(** [s.replace(old, new)]; with an empty [old] Python puts [new] before every
    character and at the end. *)
Definition replace (old new s : pystr) : pystr :=
  match old with
  | [] => new ++ flat_map (fun c => c :: new) s
  | _ :: _ => replace_from 0 old new s
  end.

(** [s.split(sep)] for a non-empty [sep]: the pieces between occurrences of
    [sep], scanned from the left; [cur] is the piece being read, reversed. *)
Fixpoint split_from (skip : nat) (sep : pystr) (cur : pystr) (s : pystr)
  : list pystr :=
  match s with
  | [] => [rev cur]
  | c :: s' =>
      match skip with
      | S k => split_from k sep cur s'
      | O =>
          if startswith sep s
          then rev cur :: split_from (length sep - 1) sep [] s'
          else split_from 0 sep (c :: cur) s'
      end
  end.

Definition split (sep s : pystr) : list pystr := split_from 0 sep [] s.

(** [str.isspace] on one code point: the Unicode white space of CPython's
    [_PyUnicode_IsWhitespace]. *)
Definition isspace (c : char) : bool :=
  ((9 <=? c) && (c <=? 13)) || ((28 <=? c) && (c <=? 32))
  || (c =? 133) || (c =? 160) || (c =? 5760)
  || ((8192 <=? c) && (c <=? 8202))
  || (c =? 8232) || (c =? 8233) || (c =? 8239) || (c =? 8287) || (c =? 12288).

Fixpoint lstrip (s : pystr) : pystr :=
  match s with
  | c :: s' => if isspace c then lstrip s' else s
  | [] => []
  end.

Definition rstrip (s : pystr) : pystr := rev (lstrip (rev s)).

(** [s.strip()] *)
Definition strip (s : pystr) : pystr := rstrip (lstrip s).

(** [sep.join(parts)] *)
Fixpoint join (sep : pystr) (parts : list pystr) : pystr :=
  match parts with
  | [] => []
  | p :: rest =>
      match rest with
      | [] => p
      | _ :: _ => p ++ sep ++ join sep rest
      end
  end.

(** ["".join(parts)] *)
Definition join_empty (parts : list pystr) : pystr := concat parts.

End PyStr.

(* ================================================================== *)
(** ** [escape_for_type_keys] *)
(* ================================================================== *)

(** A Python [dict] with single-character keys, as the literal lists it. *)
Fixpoint dict_get {V : Type} (d : list (char * V)) (k : char) : option V :=
  match d with
  | [] => None
  | (k', v) :: d' => if (k' =? k)%N then Some v else dict_get d' k
  end.

Definition special : list (char * pystr) :=
  [ (chr "{", str "{{}"); (chr "}", str "{}}"); (chr "+", str "{+}");
    (chr "^", str "{^}"); (chr "%", str "{%}"); (chr "(", str "{(}");
    (chr ")", str "{)}") ].

(** [ch in special] *)
Definition is_special (ch : char) : bool :=
  match dict_get special ch with Some _ => true | None => false end.

(** The body of the [for ch in text] loop: what is appended to [result]. *)
Definition escape_char (ch : char) : pystr :=
  match dict_get special ch with
  | Some r => r
  | None => if (ch =? LF)%N then str "{ENTER}" else [ch]
  end.

(** [text.replace("\r\n", "\n").replace("\r", "\n")] *)
Definition normalize_newlines (text : pystr) : pystr :=
  PyStr.replace [CR] [LF] (PyStr.replace [CR; LF] [LF] text).

Definition escape_for_type_keys (text : pystr) : pystr :=
  let text := normalize_newlines text in
  PyStr.join_empty (map escape_char text).

(** *** The escape semantics read backwards

    The reverse reading the specification describes: the eight brace tokens
    stand for one key each, every other character stands for itself, and a
    special character outside a brace token is not a literal key. *)

Inductive key_token : Type :=
| Plain (c : char)
| Escaped (c : char)
| Enter.

Definition escape_table : list (pystr * key_token) :=
  [ (str "{{}", Escaped (chr "{")); (str "{}}", Escaped (chr "}"));
    (str "{+}", Escaped (chr "+")); (str "{^}", Escaped (chr "^"));
    (str "{%}", Escaped (chr "%")); (str "{(}", Escaped (chr "("));
    (str "{)}", Escaped (chr ")")); (str "{ENTER}", Enter) ].

(** Reads a key string token by token.  [None] means that a special
    character occurs unescaped (outside the tokens of [escape_table]). *)
Fixpoint read_keys_from (skip : nat) (s : pystr) : option (list key_token) :=
  match s with
  | [] => Some []
  | c :: s' =>
      match skip with
      | S k => read_keys_from k s'
      | O =>
          match find (fun e => PyStr.startswith (fst e) s) escape_table with
          | Some (tok, k) =>
              option_map (cons k) (read_keys_from (length tok - 1) s')
          | None =>
              if is_special c then None
              else option_map (cons (Plain c)) (read_keys_from 0 s')
          end
      end
  end.

Definition read_keys (s : pystr) : option (list key_token) :=
  read_keys_from 0 s.

(** The character a token stands for. *)
Definition token_char (k : key_token) : char :=
  match k with
  | Plain c => c
  | Escaped c => c
  | Enter => LF
  end.

Definition reverse_escape (s : pystr) : option pystr :=
  option_map (map token_char) (read_keys s).

Definition is_enter (k : key_token) : bool :=
  match k with Enter => true | _ => false end.

(** Number of [{ENTER}] tokens of a key string (0 if it does not read). *)
Definition count_enter (s : pystr) : nat :=
  match read_keys s with
  | Some ks => length (filter is_enter ks)
  | None => 0
  end.

(** Number of newlines of a text, a ["\r\n"] pair counting once. *)
Fixpoint count_newlines (s : pystr) : nat :=
  match s with
  | [] => 0
  | c :: t =>
      if (c =? CR)%N then
        match t with
        | d :: t' =>
            if (d =? LF)%N then S (count_newlines t') else S (count_newlines t)
        | [] => 1
        end
      else if (c =? LF)%N then S (count_newlines t)
      else count_newlines t
  end.

(** The token the escaping routine writes for a character of the
    normalized text. *)
Definition token_of_char (c : char) : key_token :=
  if is_special c then Escaped c
  else if (c =? LF)%N then Enter
  else Plain c.

(** The text with every ["\r\n"] and every remaining ["\r"] turned into one
    ["\n"], by one pass from the left. *)
Fixpoint newline_form (s : pystr) : pystr :=
  match s with
  | [] => []
  | c :: t =>
      if (c =? CR)%N then
        match t with
        | d :: t' =>
            if (d =? LF)%N then LF :: newline_form t' else LF :: newline_form t
        | [] => [LF]
        end
      else c :: newline_form t
  end.

(* ================================================================== *)
(** ** Exceptions *)
(* ================================================================== *)

(** The exception classes the script can meet; all derive from
    [Exception]. *)
Inductive exn : Type :=
| ValueError
| OverflowError
| OSError
| IndexError
| AttributeError
| TypeError
| HTTPError
| RequestException.

(** A computation either returns a value or raises. *)
Inductive result (A : Type) : Type :=
| Ok (a : A)
| Raise (e : exn).
Arguments Ok {A} a.
Arguments Raise {A} e.

Definition bind {A B : Type} (r : result A) (k : A -> result B) : result B :=
  match r with
  | Ok a => k a
  | Raise e => Raise e
  end.

Notation "x <- e ;; k" := (bind e (fun x => k))
  (at level 61, e at next level, right associativity).
Notation "' pat <- e ;; k" :=
  (bind e (fun x => match x with pat => k end))
  (at level 61, pat pattern, e at next level, right associativity).

(** [try: body / except Exception: handler] *)
Definition try_except {A : Type} (body : result A) (handler : exn -> result A)
  : result A :=
  match body with
  | Ok a => Ok a
  | Raise e => handler e
  end.

Definition is_ValueError (e : exn) : bool :=
  match e with ValueError => true | _ => false end.

(** [try: body / except ValueError: handler] *)
Definition try_except_ValueError {A : Type} (body : result A)
  (handler : result A) : result A :=
  match body with
  | Ok a => Ok a
  | Raise e => if is_ValueError e then handler else Raise e
  end.

(* ================================================================== *)
(** ** The built-ins [int] and [str] on integers *)
(* ================================================================== *)

Section PyInt.

(** The decimal value the Unicode database of the interpreter gives a code
    point ([Py_UNICODE_TODECIMAL]), and the interpreter's limit on the number
    of digits of an integer string ([sys.get_int_max_str_digits()], 0 for no
    limit). *)
Variable decimal : char -> option N.
Variable max_str_digits : nat.

Local Open Scope N_scope.

(** C [isspace] in the C locale ([Py_ISSPACE]). *)
Definition c_isspace (c : char) : bool :=
  ((9 <=? c) && (c <=? 13)) || (c =? 32).

Fixpoint skip_spaces (s : pystr) : pystr :=
  match s with
  | c :: s' => if c_isspace c then skip_spaces s' else s
  | [] => []
  end.

(** The loop of [_PyUnicode_TransformDecimalAndSpaceToASCII]: white space
    becomes a blank, a decimal digit its ASCII digit, and the string is cut
    with a ["?"] at the first other non-ASCII character. *)
Fixpoint transform_loop (s : pystr) : pystr :=
  match s with
  | [] => []
  | ch :: s' =>
      if ch <? 127 then ch :: transform_loop s'
      else if PyStr.isspace ch then chr " " :: transform_loop s'
      else match decimal ch with
           | None => [chr "?"]
           | Some d => (chr "0" + d) :: transform_loop s'
           end
  end.

Definition transform_decimal_and_space (s : pystr) : pystr :=
  if forallb (fun ch => ch <? 128) s then s else transform_loop s.

Definition digit_value (c : char) : option Z :=
  if (chr "0" <=? c) && (c <=? chr "9") then Some (Z.of_N (c - chr "0"))
  else None.

(** The digit scan of [PyLong_FromString] in base 10: digits, with single
    underscores between them.  Returns the value, the number of digits and
    what is left; [None] on a doubled or trailing underscore. *)
Fixpoint scan_digits (prev_underscore : bool) (acc : Z) (digits : nat)
  (s : pystr) : option (Z * nat * pystr) :=
  match s with
  | [] => if prev_underscore then None else Some (acc, digits, [])
  | c :: s' =>
      if c =? chr "_" then
        if prev_underscore then None else scan_digits true acc digits s'
      else
        match digit_value c with
        | Some d => scan_digits false (10 * acc + d)%Z (S digits) s'
        | None => if prev_underscore then None else Some (acc, digits, s)
        end
  end.

(** [PyLong_FromString(s, base=10)] up to the digit limit: the value and
    the number of digits read. *)
Definition parse_long (s : pystr) : result (Z * nat) :=
  let s := skip_spaces s in
  let '(sign, s) :=
    match s with
    | c :: s' =>
        if c =? chr "+" then (1%Z, s')
        else if c =? chr "-" then ((-1)%Z, s')
        else (1%Z, s)
    | [] => (1%Z, s)
    end in
  if PyStr.startswith (str "_") s then Raise ValueError
  else
    match scan_digits false 0%Z 0%nat s with
    | None => Raise ValueError
    | Some (v, digits, rest) =>
        match digits, skip_spaces rest with
        | S _, [] => Ok ((sign * v)%Z, digits)
        | _, _ => Raise ValueError
        end
    end.

Definition exceeds_max_str_digits (digits : nat) : bool :=
  (0 <? max_str_digits)%nat && (max_str_digits <? digits)%nat.

(** [int(s)] for a [str] argument. *)
Definition py_int (s : pystr) : result Z :=
  '(v, digits) <- parse_long (transform_decimal_and_space s) ;;
  if exceeds_max_str_digits digits then Raise ValueError else Ok v.

End PyInt.

(** [str(n)] for an [int]. *)
Definition py_str_int (n : Z) : pystr :=
  str (NilZero.string_of_int (Z.to_int n)).

(* ================================================================== *)
(** ** [datetime] *)
(* ================================================================== *)

Record datetime : Type := mk_datetime {
  year : Z; month : Z; day : Z;
  hour : Z; minute : Z; second : Z; microsecond : Z
}.

Local Open Scope Z_scope.

Definition is_leap (y : Z) : bool :=
  (y mod 4 =? 0) && (negb (y mod 100 =? 0) || (y mod 400 =? 0)).

Definition days_in_month (y m : Z) : Z :=
  if m =? 2 then (if is_leap y then 29 else 28)
  else if (m =? 4) || (m =? 6) || (m =? 9) || (m =? 11) then 30
  else 31.

Definition fits_c_int (z : Z) : bool :=
  (- 2 ^ 31 <=? z) && (z <? 2 ^ 31).

(** The constructor [datetime(year, month, day)]: [OverflowError] for an
    argument that is no C [int], [ValueError] for one out of range. *)
Definition datetime_new (y m d : Z) : result datetime :=
  if negb (fits_c_int y && fits_c_int m && fits_c_int d)
  then Raise OverflowError
  else if negb ((1 <=? y) && (y <=? 9999)) then Raise ValueError
  else if negb ((1 <=? m) && (m <=? 12)) then Raise ValueError
  else if negb ((1 <=? d) && (d <=? days_in_month y m)) then Raise ValueError
  else Ok (mk_datetime y m d 0 0 0 0).

(** What [datetime.now()] can return. *)
Definition valid_datetime (t : datetime) : Prop :=
  1 <= year t <= 9999 /\ 1 <= month t <= 12
  /\ 1 <= day t <= days_in_month (year t) (month t)
  /\ 0 <= hour t < 24 /\ 0 <= minute t < 60 /\ 0 <= second t < 60
  /\ 0 <= microsecond t < 1000000.

(* ================================================================== *)
(** ** [prompt_for_date] and the report count *)
(* ================================================================== *)

Section Prompts.

Variable decimal : char -> option N.
Variable max_str_digits : nat.

Local Abbreviation int := (py_int decimal max_str_digits).

(** The [try] block of [prompt_for_date] from [parts] on. *)
Definition date_of_parts (today : datetime) (parts : list pystr)
  : result datetime :=
  match parts with
  | [p0; p1; p2] =>
      y <- int p0 ;;
      m <- int p1 ;;
      d <- int p2 ;;
      datetime_new y m d
  | [p0; p1] =>
      let y := year today in
      m <- int p0 ;;
      d <- int p1 ;;
      datetime_new y m d
  | _ => Raise ValueError
  end.

(** The [try] block of [prompt_for_date]. *)
Definition parse_date (today : datetime) (user_input : pystr)
  : result datetime :=
  let normalized := PyStr.replace (str "-") (str "/") user_input in
  let parts := PyStr.split (str "/") normalized in
  date_of_parts today parts.

(** [prompt_for_date()]: [today] is what [datetime.now()] returns and [line]
    what [input] returns.  The messages printed on the console are left
    out. *)
Definition prompt_for_date (today : datetime) (line : pystr)
  : result datetime :=
  let user_input := PyStr.strip line in
  match user_input with
  | [] => Ok today
  | _ :: _ =>
      try_except (parse_date today user_input) (fun _ => Ok today)
  end.

(** The report count of the main block: [line] is what [input] returns. *)
Definition read_num_reports (line : pystr) : result Z :=
  let num_input := PyStr.strip line in
  try_except_ValueError
    (num_reports <- int num_input ;;
     Ok (if num_reports <? 1 then 1 else num_reports))
    (Ok 1).

End Prompts.

(** The interpreter accepts as digit limit 0 (no limit) or a value of at
    least 640 ([sys.set_int_max_str_digits]); the default is 4300. *)
Definition valid_max_str_digits (m : nat) : Prop :=
  (m = 0 \/ 640 <= m)%nat.

(** An ASCII decimal digit. *)
Definition is_ascii_digit (c : char) : bool :=
  ((chr "0" <=? c) && (c <=? chr "9"))%N.

(** A character that no integer literal contains: ASCII, and neither a
    digit, a sign, an underscore nor white space. *)
Definition non_numeric_char (c : char) : bool :=
  ((c <? 127) && negb (is_ascii_digit c) && negb (c =? chr "+")
   && negb (c =? chr "-") && negb (c =? chr "_") && negb (PyStr.isspace c))%N.

(** What is left of [non_numeric_char] once the string is ASCII. *)
Definition rejected_char (c : char) : bool :=
  (negb (is_ascii_digit c) && negb (c =? chr "+") && negb (c =? chr "-")
   && negb (c =? chr "_") && negb (c_isspace c))%N.

Definition dash_to_slash (c : char) : char :=
  if (c =? chr "-")%N then chr "/" else c.

(* ================================================================== *)
(** ** The environment and the actions of the script *)
(* ================================================================== *)

(** An image, as far as the script looks at it: its size in pixels. *)
Record image : Type := mk_image { width : Z; height : Z }.

Definition size (img : image) : Z * Z := (width img, height img).

(** What [ImageGrab.grabclipboard()] can return: an image, a list of file
    names (which has no [save] method), or [None]. *)
Inductive clip : Type :=
| ClipImage (img : image)
| ClipFiles
| ClipNone.

(** A top-level window as [desktop.windows()] lists it. *)
Record window : Type := mk_window { is_visible : bool; window_text : pystr }.

(** A JSON document as [res.json()] returns it.  Of a float only its
    truth value and its [str] are looked at. *)
#[warning="-register-all"]
Inductive json : Type :=
| JNull
| JBool (b : bool)
| JInt (n : Z)
| JFloat (nonzero : bool) (repr : pystr)
| JStr (s : pystr)
| JList (items : list json)
| JDict (entries : list (pystr * json)).

(** What one HTTP exchange comes to: [requests.post] raises, the status is
    not 2xx ([raise_for_status] raises), the body is no JSON ([res.json()]
    raises a [ValueError]), or a document. *)
Inductive http_result : Type :=
| ConnectionFailed
| BadStatus
| BadBody
| Body (doc : json).

(** The actions the script performs that can be seen from outside.  Pauses
    ([time.sleep]) are not recorded; of the console output only the messages
    that report a failure or a warning are, without the text of the exception
    where the script appends one. *)
Inductive event : Type :=
| LogMessage (message : pystr)
| Print (message : pystr)
| SetFocus
| ClearClipboard
| SendKeys (keys : pystr)
| MouseClick (x y : Z) (double : bool)
| SaveImage (img : image)
| RemoveImage
| HttpPost (image_size : Z * Z) (text : pystr)
| AppendRawOutput (text : pystr)
| WriteReport (text : pystr).

(** The state the script runs in.  [trace] is what it has done so far, latest
    first; the lists are what the environment will answer to the successive
    calls of [desktop.windows()], [ImageGrab.grabclipboard()] and
    [requests.post], and [control_texts c] to the successive calls of
    [window_text()] on control [c]; [image_file] is the file
    [extracted_xray.png], if there is one. *)
Record world : Type := mk_world {
  trace : list event;
  window_polls : list (list window);
  clipboard_grabs : list clip;
  disk_writable : bool;
  image_file : option image;
  http_responses : list http_result;
  control_texts : nat -> list pystr
}.

(** An action: it changes the world and returns or raises. *)
Definition io (A : Type) : Type := world -> world * result A.

Definition ret {A : Type} (a : A) : io A := fun w => (w, Ok a).

Definition raise {A : Type} (e : exn) : io A := fun w => (w, Raise e).

Definition io_bind {A B : Type} (m : io A) (k : A -> io B) : io B :=
  fun w =>
    match m w with
    | (w', Ok a) => k a w'
    | (w', Raise e) => (w', Raise e)
    end.

Notation "x <~ e ;; k" := (io_bind e (fun x => k))
  (at level 61, e at next level, right associativity).
Notation "e ;;; k" := (io_bind e (fun _ => k))
  (at level 61, right associativity).
Notation "' pat <~ e ;; k" :=
  (io_bind e (fun x => match x with pat => k end))
  (at level 61, pat pattern, e at next level, right associativity).

(** [try: body / except Exception as e: handler e] *)
Definition io_try {A : Type} (body : io A) (handler : exn -> io A) : io A :=
  fun w =>
    match body w with
    | (w', Ok a) => (w', Ok a)
    | (w', Raise e) => handler e w'
    end.

Definition lift {A : Type} (r : result A) : io A := fun w => (w, r).

Definition emit (e : event) : io unit :=
  fun w =>
    (mk_world (e :: trace w) (window_polls w) (clipboard_grabs w)
       (disk_writable w) (image_file w) (http_responses w) (control_texts w),
     Ok tt).

Definition log_message (message : pystr) : io unit := emit (LogMessage message).
Definition print (message : pystr) : io unit := emit (Print message).
Definition send_keys (keys : pystr) : io unit := emit (SendKeys keys).
Definition mouse_click (x y : Z) (double : bool) : io unit :=
  emit (MouseClick x y double).

(** [pacs_win.set_focus()] inside its [try/except]: a failure is passed
    over. *)
Definition set_focus : io unit := emit SetFocus.

(** [desktop.windows()] *)
Definition desktop_windows : io (list window) :=
  fun w =>
    (mk_world (trace w) (tl (window_polls w)) (clipboard_grabs w)
       (disk_writable w) (image_file w) (http_responses w) (control_texts w),
     Ok (hd [] (window_polls w))).

(** [ImageGrab.grabclipboard()] *)
Definition grabclipboard : io clip :=
  fun w =>
    (mk_world (trace w) (window_polls w) (tl (clipboard_grabs w))
       (disk_writable w) (image_file w) (http_responses w) (control_texts w),
     Ok (hd ClipNone (clipboard_grabs w))).

(** [img.save(TEMP_IMAGE_PATH, "PNG")], for what the clipboard gave. *)
Definition save (c : clip) : io unit :=
  match c with
  | ClipImage img =>
      fun w =>
        if disk_writable w then
          (mk_world (SaveImage img :: trace w) (window_polls w)
             (clipboard_grabs w) (disk_writable w) (Some img)
             (http_responses w) (control_texts w),
           Ok tt)
        else (w, Raise OSError)
  | ClipFiles => raise AttributeError
  | ClipNone => raise AttributeError
  end.

(** [os.path.exists(TEMP_IMAGE_PATH)] and [Image.open(TEMP_IMAGE_PATH)] *)
Definition open_image_file : io (option image) :=
  fun w => (w, Ok (image_file w)).

(** [if os.path.exists(TEMP_IMAGE_PATH): os.remove(TEMP_IMAGE_PATH)] *)
Definition remove_image_file : io unit :=
  fun w =>
    match image_file w with
    | Some _ =>
        (mk_world (RemoveImage :: trace w) (window_polls w)
           (clipboard_grabs w) (disk_writable w) None
           (http_responses w) (control_texts w),
         Ok tt)
    | None => (w, Ok tt)
    end.

(** [requests.post(...)], [res.raise_for_status()] and [res.json()] *)
Definition post_and_decode (image_size : Z * Z) (text : pystr) : io json :=
  fun w =>
    let w' :=
      mk_world (HttpPost image_size text :: trace w) (window_polls w)
        (clipboard_grabs w) (disk_writable w) (image_file w)
        (tl (http_responses w)) (control_texts w) in
    match hd ConnectionFailed (http_responses w) with
    | ConnectionFailed => (w', Raise RequestException)
    | BadStatus => (w', Raise HTTPError)
    | BadBody => (w', Raise ValueError)
    | Body doc => (w', Ok doc)
    end.

(** [c.window_text()] for the control numbered [c]. *)
Definition read_window_text (c : nat) : io pystr :=
  fun w =>
    (mk_world (trace w) (window_polls w) (clipboard_grabs w)
       (disk_writable w) (image_file w) (http_responses w)
       (fun c' => if Nat.eqb c' c then tl (control_texts w c')
                  else control_texts w c'),
     Ok (hd [] (control_texts w c))).

(* ================================================================== *)
(** ** Step 2: [extract_image] *)
(* ================================================================== *)

Definition pacs_prefix : pystr := chr "[" :: 32317%N :: 38498%N :: [chr "]"].
Definition ris_marker : pystr := [25918%N; 23556%N; 32218%N].

(** The test of the inner loop over [desktop.windows()]. *)
Definition is_pacs_window (w : window) : bool :=
  is_visible w && PyStr.startswith pacs_prefix (window_text w)
  && negb (PyStr.contains ris_marker (window_text w)).

(** [for _ in range(15)]: poll until a PACS window shows. *)
Fixpoint wait_for_pacs (polls : nat) : io (option window) :=
  match polls with
  | O => ret None
  | S polls' =>
      ws <~ desktop_windows ;;
      match find is_pacs_window ws with
      | Some pacs_win => ret (Some pacs_win)
      | None => wait_for_pacs polls'
      end
  end.

Definition digit_str (n : nat) : pystr := py_str_int (Z.of_nat n).

(** [for attempt in range(3)], from attempt number [attempt] on, with
    [remaining] attempts left: copy and look at the clipboard. *)
Fixpoint copy_attempts (remaining attempt : nat) : io clip :=
  match remaining with
  | O => ret ClipNone
  | S remaining' =>
      set_focus ;;;
      send_keys (str "^c") ;;;
      img <~ grabclipboard ;;
      match img with
      | ClipNone =>
          print (str "  Clipboard empty, retrying (" ++ digit_str (attempt + 1)
                 ++ str "/3)...") ;;;
          copy_attempts remaining' (attempt + 1)
      | _ => ret img
      end
  end.

Definition msg_no_image : pystr :=
  str "Error: No image found in clipboard after 3 attempts.".

Definition extract_image : io bool :=
  log_message (LF :: str "=== STEP 2: Extract Image ===") ;;;
  pacs_win <~ wait_for_pacs 15 ;;
  match pacs_win with
  | None =>
      log_message (str "Error: PACS viewer not found.") ;;;
      ret false
  | Some _ =>
      log_message (str "Found PACS viewer window") ;;;
      set_focus ;;;
      emit ClearClipboard ;;;
      set_focus ;;;
      send_keys (str "^i") ;;;
      img <~ copy_attempts 3 0 ;;
      io_try
        (match img with
         | ClipNone => print msg_no_image ;;; ret false
         | _ => save img ;;; ret true
         end)
        (fun _ =>
           print (str "Error: Failed to grab image from clipboard") ;;;
           ret false)
  end.

(* ================================================================== *)
(** ** Step 3: [analyze_image] *)
(* ================================================================== *)

Definition prompt : pystr :=
  str "Describe the findings in this chest X-ray in plain text. "
  ++ str "Ignore any overlaid text such as "
  ++ str "'Please refer to arrow(s) in key image(s)' "
  ++ [8212%N]
  ++ str " that is a software annotation, not part of the X-ray. "
  ++ str "Do not include it in your response.".

Definition max_side : Z := 1024.

(** ['='*60] *)
Definition rule60 : pystr := repeat (chr "=") 60.

Section Analyze.

(** [Image.thumbnail] of Pillow, as a function from the box asked for and
    the size of the image to the new size. *)
Variable thumbnail : Z * Z -> Z * Z -> Z * Z.

(** The resizing step: the size of the image that is sent. *)
Definition downscale (sz : Z * Z) : Z * Z :=
  if Z.max (fst sz) (snd sz) >? max_side
  then thumbnail (max_side, max_side) sz
  else sz.

(** [d.get(key, "")] *)
Fixpoint dict_lookup (d : list (pystr * json)) (key : pystr) : option json :=
  match d with
  | [] => None
  | (k, v) :: d' => if PyStr.eqb k key then Some v else dict_lookup d' key
  end.

Definition get_or_empty (d : list (pystr * json)) (key : pystr) : json :=
  match dict_lookup d key with
  | Some v => v
  | None => JStr []
  end.

(** The truth value of a Python object. *)
Definition truthy (j : json) : bool :=
  match j with
  | JNull => false
  | JBool b => b
  | JInt n => negb (n =? 0)
  | JFloat nonzero _ => nonzero
  | JStr s => match s with [] => false | _ => true end
  | JList items => match items with [] => false | _ => true end
  | JDict entries => match entries with [] => false | _ => true end
  end.

(** [str(result)] where it is applied: to what is neither list nor dict. *)
Definition py_str_json (j : json) : pystr :=
  match j with
  | JNull => str "None"
  | JBool true => str "True"
  | JBool false => str "False"
  | JInt n => py_str_int n
  | JFloat _ repr => repr
  | JStr s => s
  | JList _ => []
  | JDict _ => []
  end.

(** The [if isinstance(result, list) ... else] of [analyze_image]: the
    object bound to [content]. *)
Definition extract_content (doc : json) : result json :=
  match doc with
  | JList items =>
      match items with
      | [] => Raise IndexError
      | JDict d :: _ => Ok (get_or_empty d (str "generated_text"))
      | _ :: _ => Raise AttributeError
      end
  | JDict d =>
      let first := get_or_empty d (str "generated_text") in
      Ok (if truthy first then first else get_or_empty d (str "text"))
  | other => Ok (JStr (py_str_json other))
  end.

(** [parts[0]] *)
Definition first_item {A : Type} (parts : list A) : result A :=
  match parts with
  | a :: _ => Ok a
  | [] => Raise IndexError
  end.

Definition strip_echoed_prompt (content : pystr) : pystr :=
  if PyStr.startswith prompt content
  then PyStr.strip (skipn (length prompt) content)
  else content.

(** The clean-up of the response text: the value of [content] that is
    written to the report file. *)
Definition clean_content (content : pystr) : result pystr :=
  let content := strip_echoed_prompt content in
  first <- first_item (PyStr.split [LF; LF] content) ;;
  Ok (PyStr.strip first).

(** The writes to [raw_output.txt]; [f.write] takes a [str] only.  The line
    with the time of day, between the two rules, is left out. *)
Definition write_raw_output (content : json) : io pystr :=
  emit (AppendRawOutput (LF :: rule60 ++ [LF])) ;;;
  emit (AppendRawOutput (rule60 ++ [LF])) ;;;
  match content with
  | JStr s => emit (AppendRawOutput s) ;;; emit (AppendRawOutput [LF]) ;;; ret s
  | _ => raise TypeError
  end.

Definition analyze_image : io (option pystr) :=
  log_message (LF :: str "=== STEP 3: AI Analysis ===") ;;;
  file <~ open_image_file ;;
  match file with
  | None => ret None
  | Some img =>
      let sent := downscale (size img) in
      io_try
        (result <~ post_and_decode sent prompt ;;
         content <~ lift (extract_content result) ;;
         content <~ write_raw_output content ;;
         content <~ lift (clean_content content) ;;
         emit (WriteReport content) ;;;
         let findings := PyStr.strip content in
         ret (Some findings))
        (fun e =>
           print (if match e with HTTPError => true | _ => false end
                  then str "API HTTP Error" else str "API Error") ;;;
           ret None)
  end.

End Analyze.

(** *** Pillow's size computation

    [Image.thumbnail] of Pillow 7 and later computes the new size as
    follows, here in exact arithmetic where Pillow uses floating point: the
    image is left alone if it fits the box; otherwise one side takes the side
    of the box and the other the proportional length, rounded down or up,
    whichever keeps the aspect ratio better, and at least 1. *)

Definition ceil_div (a b : Z) : Z := - ((- a) / b).

(** [max(min(floor(number), ceil(number), key=key), 1)] *)
Definition round_aspect (lo hi : Z) (key_lo_le_hi : bool) : Z :=
  Z.max (if key_lo_le_hi then lo else hi) 1.

Definition pillow_thumbnail_size (box sz : Z * Z) : Z * Z :=
  let '(x, y) := box in
  let '(w, h) := sz in
  if (x >=? w) && (y >=? h) then sz
  else if x * h >=? w * y then
    let lo := (y * w) / h in
    let hi := ceil_div (y * w) h in
    (round_aspect lo hi (Z.abs (w * y - lo * h) <=? Z.abs (w * y - hi * h)), y)
  else
    let lo := (x * h) / w in
    let hi := ceil_div (x * h) w in
    (x, round_aspect lo hi
          ((lo =? 0)
           || (negb (hi =? 0)
               && (Z.abs (w * lo - x * h) * hi <=? Z.abs (w * hi - x * h) * lo)))).

(** What Pillow documents of [thumbnail]: the result is no larger than the
    box nor than the image, and the aspect ratio is kept up to the rounding of
    one side to a whole number of pixels. *)
Definition thumbnail_contract (thumbnail : Z * Z -> Z * Z -> Z * Z) : Prop :=
  forall x y w h, 1 <= x -> 1 <= y -> 1 <= w -> 1 <= h ->
    let '(w', h') := thumbnail (x, y) (w, h) in
    1 <= w' <= Z.min x w /\ 1 <= h' <= Z.min y h
    /\ Z.abs (w' * h - h' * w) < Z.max w h.

(** The text before the first blank line (["\n\n"]) of [s]; all of [s] if it
    has none. *)
Fixpoint first_paragraph (s : pystr) : pystr :=
  match s with
  | [] => []
  | c :: t =>
      if PyStr.startswith [LF; LF] s then [] else c :: first_paragraph t
  end.

Definition findings_normal : pystr := str "Findings: normal.".

(** A world with an image on disk and one response of the endpoint to
    come. *)
Definition world_with_response (img : image) (r : http_result) : world :=
  mk_world [] [] [] true (Some img) [r] (fun _ => []).

(* ================================================================== *)
(** ** Step 1: the date pickers of [search_and_open] *)
(* ================================================================== *)

Record rectangle : Type := mk_rectangle { left : Z; top : Z; right : Z; bottom : Z }.

(** An entry of [date_pickers]: the control (by its number) and its
    rectangle. *)
Record date_picker : Type := mk_date_picker { control : nat; rect : rectangle }.

(** [f"{now.year}/{now.month}/{now.day}"] *)
Definition expected_date (now : datetime) : pystr :=
  py_str_int (year now) ++ str "/" ++ py_str_int (month now) ++ str "/"
  ++ py_str_int (day now).

(** [expected_date in new_date or new_date == expected_date] *)
Definition date_matches (now : datetime) (new_date : pystr) : bool :=
  PyStr.contains (expected_date now) new_date
  || PyStr.eqb new_date (expected_date now).

(** One attempt, up to the verification: click into the year, type year,
    month and day, confirm. *)
Definition type_date (dp : date_picker) (now : datetime) : io unit :=
  let year_x := left (rect dp) + 30 in
  let center_y := (top (rect dp) + bottom (rect dp)) / 2 in
  mouse_click year_x center_y false ;;;
  send_keys (py_str_int (year now)) ;;;
  send_keys (str "{RIGHT}") ;;;
  send_keys (py_str_int (month now)) ;;;
  send_keys (str "{RIGHT}") ;;;
  send_keys (py_str_int (day now)) ;;;
  send_keys (str "{ENTER}") ;;;
  send_keys (str "{TAB}").

Definition msg_date_retry : pystr :=
  str "    [FAIL] Date not set correctly, retrying...".

(** [for attempt in range(3)] with [remaining] attempts left; [true] when
    the loop was left by [break], [false] when it ran out (the [else] of the
    [for]). *)
Fixpoint date_attempts (remaining : nat) (dp : date_picker) (now : datetime)
  : io bool :=
  match remaining with
  | O => ret false
  | S remaining' =>
      type_date dp now ;;;
      new_date <~ read_window_text (control dp) ;;
      if date_matches now new_date then ret true
      else print msg_date_retry ;;; date_attempts remaining' dp now
  end.

Definition msg_date_warning (i : nat) : pystr :=
  str "    [WARN] WARNING: Could not set date picker " ++ digit_str i
  ++ str " to today's date after 3 attempts!".

Definition msg_date_current (current : pystr) (now : datetime) : pystr :=
  str "    Current value: " ++ current ++ str ", Expected: " ++ expected_date now.

(** The body of [for i, (dp, rect) in enumerate(date_pickers)]. *)
Definition set_date_picker (i : nat) (dp : date_picker) (now : datetime)
  : io unit :=
  old_date <~ read_window_text (control dp) ;;
  done <~ date_attempts 3 dp now ;;
  if done then ret tt
  else
    print (msg_date_warning i) ;;;
    current <~ read_window_text (control dp) ;;
    print (msg_date_current current now).

Fixpoint set_date_pickers (i : nat) (date_pickers : list date_picker)
  (now : datetime) : io unit :=
  match date_pickers with
  | [] => ret tt
  | dp :: rest =>
      set_date_picker i dp now ;;; set_date_pickers (S i) rest now
  end.

(** What the loop comes to for given readings of the control: the number of
    attempts made out of [limit], and whether one was verified. *)
Fixpoint attempts_needed (now : datetime) (readings : list pystr) (limit : nat)
  : nat * bool :=
  match limit with
  | O => (O, false)
  | S limit' =>
      if date_matches now (hd [] readings) then (1%nat, true)
      else
        let '(k, done) := attempts_needed now (tl readings) limit' in
        (S k, done)
  end.

Definition is_click (e : event) : bool :=
  match e with MouseClick _ _ _ => true | _ => false end.

Definition clicks (evs : list event) : nat := length (filter is_click evs).

Definition event_is_print (m : pystr) (e : event) : bool :=
  match e with Print m' => PyStr.eqb m m' | _ => false end.

Definition event_is_log (m : pystr) (e : event) : bool :=
  match e with LogMessage m' => PyStr.eqb m m' | _ => false end.

Definition event_is_keys (k : pystr) (e : event) : bool :=
  match e with SendKeys k' => PyStr.eqb k k' | _ => false end.

(* ================================================================== *)
(** ** The orchestrator *)
(* ================================================================== *)

Definition msg_processing (report_num num_reports : Z) : pystr :=
  str "PROCESSING REPORT " ++ py_str_int (report_num + 1) ++ str " OF "
  ++ py_str_int num_reports.

Definition msg_completed (report_num : Z) : pystr :=
  LF :: str "[OK] Report " ++ py_str_int (report_num + 1) ++ str " completed!".

Definition msg_analyze_failed (report_num : Z) : pystr :=
  str "[FAIL] Failed to analyze image for report " ++ py_str_int (report_num + 1).

Definition msg_extract_failed (report_num : Z) : pystr :=
  str "[FAIL] Failed to extract image for report " ++ py_str_int (report_num + 1).

Definition msg_all_completed (report_num : Z) : pystr :=
  str "[OK] ALL " ++ py_str_int (report_num + 1)
  ++ str " REPORTS COMPLETED SUCCESSFULLY!".

Definition msg_finished_with_errors (report_num num_reports : Z) : pystr :=
  str "[FAIL] WORKFLOW FINISHED WITH ERRORS (completed "
  ++ py_str_int report_num ++ str " of " ++ py_str_int num_reports ++ str ")".

Section Orchestrator.

Variable thumbnail : Z * Z -> Z * Z -> Z * Z.

(** Steps 1 and 4 drive the GUI of the host application; the orchestrator
    takes them as given actions. *)
Variable search_and_open : datetime -> io bool.
Variable enter_report : pystr -> io unit.

(** [for report_num in range(num_reports)] from [report_num] on, with
    [remaining] rounds left.  Returns [all_succeeded] and the value
    [report_num] has after the loop. *)
Fixpoint report_loop (remaining : nat) (report_num num_reports : Z)
  : io (bool * Z) :=
  match remaining with
  | O => ret (true, report_num - 1)
  | S remaining' =>
      log_message (LF :: rule60) ;;;
      log_message (msg_processing report_num num_reports) ;;;
      log_message (rule60 ++ [LF]) ;;;
      remove_image_file ;;;
      extracted <~ extract_image ;;
      if extracted then
        findings <~ analyze_image thumbnail ;;
        match findings with
        | Some (c :: f) =>
            enter_report (c :: f) ;;;
            log_message (msg_completed report_num) ;;;
            (if report_num <? num_reports - 1
             then send_keys (str "{F4}") else ret tt) ;;;
            report_loop remaining' (report_num + 1) num_reports
        | _ =>
            log_message (msg_analyze_failed report_num) ;;;
            ret (false, report_num)
        end
      else
        log_message (msg_extract_failed report_num) ;;;
        ret (false, report_num)
  end.

(** The body of [if search_and_open(selected_date)]. *)
Definition process_reports (num_reports : Z) : io unit :=
  '(all_succeeded, report_num) <~
     report_loop (Z.to_nat num_reports) 0 num_reports ;;
  log_message (LF :: rule60) ;;;
  (if (all_succeeded : bool)
   then log_message (msg_all_completed report_num)
   else log_message (msg_finished_with_errors report_num num_reports)) ;;;
  log_message rule60.

(** The main block from the search on, inside its [try/except Exception];
    the text of the exception is not part of the logged line here. *)
Definition run_workflow (selected_date : datetime) (num_reports : Z)
  : io unit :=
  io_try
    (found <~ search_and_open selected_date ;;
     if found then process_reports num_reports else ret tt)
    (fun e =>
       log_message (LF :: rule60) ;;;
       log_message (str "ERROR: ") ;;;
       log_message rule60).

End Orchestrator.

(** The PACS window shows within the 15 polls. *)
Definition pacs_shows (w : world) : bool :=
  existsb (existsb is_pacs_window) (firstn 15 (window_polls w)).

Definition is_ClipNone (c : clip) : bool :=
  match c with ClipNone => true | _ => false end.

(** The next three looks at the clipboard find no image. *)
Definition clipboard_stays_empty (w : world) : bool :=
  forallb is_ClipNone (firstn 3 (clipboard_grabs w)).

(** Number of reports a run has begun. *)
Definition is_processing (e : event) : bool :=
  match e with
  | LogMessage m => PyStr.startswith (str "PROCESSING REPORT ") m
  | _ => false
  end.

Definition reports_begun (evs : list event) : nat :=
  length (filter is_processing evs).

(** World transformers used to state what an action does. *)
Definition add_events (evs : list event) (w : world) : world :=
  mk_world (evs ++ trace w) (window_polls w) (clipboard_grabs w)
    (disk_writable w) (image_file w) (http_responses w) (control_texts w).

Definition pop_text (c : nat) (w : world) : world :=
  mk_world (trace w) (window_polls w) (clipboard_grabs w)
    (disk_writable w) (image_file w) (http_responses w)
    (fun c' => if Nat.eqb c' c then tl (control_texts w c')
               else control_texts w c').

(** The events of one attempt on a date picker, latest first. *)
Definition type_date_events (dp : date_picker) (now : datetime) : list event :=
  [ SendKeys (str "{TAB}"); SendKeys (str "{ENTER}");
    SendKeys (py_str_int (day now)); SendKeys (str "{RIGHT}");
    SendKeys (py_str_int (month now)); SendKeys (str "{RIGHT}");
    SendKeys (py_str_int (year now));
    MouseClick (left (rect dp) + 30) ((top (rect dp) + bottom (rect dp)) / 2)
      false ].

Definition with_polls (polls : list (list window)) (w : world) : world :=
  mk_world (trace w) polls (clipboard_grabs w) (disk_writable w)
    (image_file w) (http_responses w) (control_texts w).

Definition msg_clipboard_retry (attempt : nat) : pystr :=
  str "  Clipboard empty, retrying (" ++ digit_str (attempt + 1)
  ++ str "/3)...".

(** The events of [extract_image], latest first, when the PACS window shows
    and the clipboard stays empty. *)
Definition extract_empty_events : list event :=
  [ Print msg_no_image;
    Print (msg_clipboard_retry 2); SendKeys (str "^c"); SetFocus;
    Print (msg_clipboard_retry 1); SendKeys (str "^c"); SetFocus;
    Print (msg_clipboard_retry 0); SendKeys (str "^c"); SetFocus;
    SendKeys (str "^i"); SetFocus; ClearClipboard; SetFocus;
    LogMessage (str "Found PACS viewer window");
    LogMessage (LF :: str "=== STEP 2: Extract Image ===") ].

(** The events of one round of the report loop up to the extraction, latest
    first; [removed] tells whether an old image file was deleted. *)
Definition round_start_events (removed : bool) (report_num num_reports : Z)
  : list event :=
  (if removed then [RemoveImage] else [])
  ++ [ LogMessage (rule60 ++ [LF]);
       LogMessage (msg_processing report_num num_reports);
       LogMessage (LF :: rule60) ].

Definition is_http_post (e : event) : bool :=
  match e with HttpPost _ _ => true | _ => false end.

(** A world where the PACS window is up, the clipboard never holds an
    image, and the endpoint would answer. *)
Definition world_empty_clipboard : world :=
  mk_world [] [[mk_window true (pacs_prefix ++ str " CXR")]] [] true None
    [Body (JDict [(str "generated_text", JStr findings_normal)])]
    (fun _ => []).

(** What [enter_report] types when the report editor and its EXAM box are
    there: caret to the end, then a line break and the escaped findings. *)
Definition type_findings (findings : pystr) : io unit :=
  send_keys (str "^{END}") ;;;
  send_keys (str "{ENTER}" ++ escape_for_type_keys findings).

(** A world where two reports go through: the PACS window is up, each copy
    puts an image on the clipboard and the endpoint answers. *)
Definition world_two_reports : world :=
  let pacs := [mk_window true (pacs_prefix ++ str " CXR")] in
  let answer := Body (JList [JDict [(str "generated_text",
                                     JStr (prompt ++ findings_normal))]]) in
  mk_world [] [pacs; pacs]
    [ClipImage (mk_image 3000 2000); ClipNone; ClipImage (mk_image 800 600)]
    true None [answer; answer] (fun _ => []).

(** What the looks at the clipboard of [extract_image] come to: the first
    of at most [looks] answers that is not [None]. *)
Fixpoint first_clip (looks : nat) (grabs : list clip) : clip :=
  match looks with
  | O => ClipNone
  | S looks' =>
      match hd ClipNone grabs with
      | ClipNone => first_clip looks' (tl grabs)
      | c => c
      end
  end.

(** The image [extract_image] can save: the PACS window shows, a look at the
    clipboard finds an image and the file can be written. *)
Definition extractable (w : world) : option image :=
  if pacs_shows w && disk_writable w then
    match first_clip 3 (clipboard_grabs w) with
    | ClipImage img => Some img
    | _ => None
    end
  else None.

Definition is_some {A : Type} (o : option A) : bool :=
  match o with Some _ => true | None => false end.

(** How often a key string was sent. *)
Definition sent (keys : pystr) (evs : list event) : nat :=
  length (filter (event_is_keys keys) evs).

Definition posts (evs : list event) : nat :=
  length (filter is_http_post evs).

Definition report_writes (evs : list event) : nat :=
  length (filter (fun e => match e with WriteReport _ => true | _ => false end)
            evs).

(** What [analyze_image] returns for an answer of the endpoint, the image
    file being there: the cleaned text of a response whose content is a
    string, [None] otherwise. *)
Definition analysis_result (r : http_result) : option pystr :=
  match r with
  | Body doc =>
      match extract_content doc with
      | Ok (JStr s) =>
          Some (PyStr.strip (first_paragraph (strip_echoed_prompt s)))
      | _ => None
      end
  | _ => None
  end.

(** Findings the report loop goes on with: [if findings] holds. *)
Definition usable (findings : option pystr) : bool :=
  match findings with
  | Some (_ :: _) => true
  | _ => false
  end.

Definition is_scalar (j : json) : bool :=
  match j with
  | JList _ | JDict _ => false
  | _ => true
  end.

Definition with_responses (rs : list http_result) (w : world) : world :=
  mk_world (trace w) (window_polls w) (clipboard_grabs w) (disk_writable w)
    (image_file w) rs (control_texts w).

(* ================================================================== *)
(** ** Step 4: [enter_report] *)
(* ================================================================== *)

(** A control of the main window as the loop over [descendants()] looks at
    it. *)
Record control_info : Type :=
  mk_control_info { class_name : pystr; control_visible : bool }.

(** What the desktop holds when [enter_report] runs: the descendants of the
    main window of the host application if that window is there (without it
    both [descendants()] and [set_focus()] raise), and the rectangle of the
    EXAM box if the window has one ([box.exists()]).  Controls that are
    there answer; the [except] clause around the typing is then never
    entered. *)
Record editor : Type := mk_editor {
  main_window : option (list control_info);
  exam_box : option rectangle
}.

(** The test of the loop over [main_win.descendants()]. *)
Definition is_visible_date_picker (c : control_info) : bool :=
  PyStr.contains (str "DateTimePick") (class_name c) && control_visible c.

(** [box.click_input()]: pywinauto clicks the middle of the control. *)
Definition click_input (r : rectangle) : io unit :=
  mouse_click (left r + (right r - left r) / 2)
    (top r + (bottom r - top r) / 2) false.

Definition msg_findings_empty : pystr :=
  str "[WARN] WARNING: Findings are empty!".

Definition msg_still_searching : pystr :=
  str "[WARN] WARNING: Still on search screen (date pickers visible)".

Definition enter_report (ed : editor) (findings : pystr) : io unit :=
  log_message (LF :: str "=== STEP 4: Enter Report ===") ;;;
  match findings with
  | [] => print msg_findings_empty
  | _ :: _ =>
      match main_window ed with
      | None => print (str "Error finding window: ")
      | Some children =>
          (if existsb is_visible_date_picker children
           then print msg_still_searching ;;;
                print (str "  Waiting for report editor...")
           else ret tt) ;;;
          set_focus ;;;
          match exam_box ed with
          | Some box => click_input box ;;; type_findings findings
          | None => print (str "[FAIL] EXAM box not found")
          end
      end
  end.

(** The key strings sent, in the order they were sent. *)
Fixpoint keys_sent (evs : list event) : list pystr :=
  match evs with
  | [] => []
  | SendKeys keys :: evs' => keys_sent evs' ++ [keys]
  | _ :: evs' => keys_sent evs'
  end.

(** The editor is up: the main window is there and has its EXAM box. *)
Definition editor_ready (ed : editor) : bool :=
  is_some (main_window ed) && is_some (exam_box ed).

Definition is_log (e : event) : bool :=
  match e with LogMessage _ => true | _ => false end.
(* ================================================================== *)
(** ** Configuration *)
(* ================================================================== *)

(** The double quote. *)
Definition quote : char := 34%N.

(** [s.lstrip(chars)], [s.rstrip(chars)] and [s.strip(chars)] *)
Fixpoint lstrip_chars (chars s : pystr) : pystr :=
  match s with
  | [] => []
  | c :: s' => if existsb (N.eqb c) chars then lstrip_chars chars s' else s
  end.

Definition rstrip_chars (chars s : pystr) : pystr :=
  rev (lstrip_chars chars (rev s)).

Definition strip_chars (chars s : pystr) : pystr :=
  rstrip_chars chars (lstrip_chars chars s).

(** [os.environ.get(name, "")] *)
Definition environ_get (environ : pystr -> option pystr) (name : pystr)
  : pystr :=
  match environ name with
  | Some value => value
  | None => []
  end.

Definition HF_TOKEN (environ : pystr -> option pystr) : pystr :=
  strip_chars [quote] (environ_get environ (str "HF_TOKEN")).

Definition HF_ENDPOINT_URL (environ : pystr -> option pystr) : pystr :=
  rstrip_chars [chr "/"]
    (strip_chars [quote] (environ_get environ (str "HF_ENDPOINT_URL"))).

(** The check of the credentials that opens the main block.  [Some 1] is
    [sys.exit(1)], which the [except Exception] of the main block lets
    through; [None] lets the run go on. *)
Definition check_credentials (environ : pystr -> option pystr)
  : io (option Z) :=
  match HF_TOKEN environ with
  | [] =>
      print (str "ERROR: HF_TOKEN environment variable is not set.") ;;;
      ret (Some 1)
  | _ :: _ =>
      match HF_ENDPOINT_URL environ with
      | [] =>
          print (str "ERROR: HF_ENDPOINT_URL environment variable is not set.")
          ;;; ret (Some 1)
      | _ :: _ => ret None
      end
  end.
(* ================================================================== *)
(** ** The main block *)
(* ================================================================== *)

Section Main.

Variable thumbnail : Z * Z -> Z * Z -> Z * Z.
Variable decimal : char -> option N.
Variable max_str_digits : nat.
Variable search_and_open : datetime -> io bool.
Variable enter_report : pystr -> io unit.


End Main.

(** Both credentials are set. *)
Definition credentials_set (environ : pystr -> option pystr) : bool :=
  negb (PyStr.eqb (HF_TOKEN environ) [])
  && negb (PyStr.eqb (HF_ENDPOINT_URL environ) []).

(* ================================================================== *)
(** * Properties *)
(* ================================================================== *)

(** ** Strings *)

Lemma two_step_ind (P : pystr -> Prop) :
  P [] ->
  (forall c, P [c]) ->
  (forall c d t, P t -> P (d :: t) -> P (c :: d :: t)) ->
  forall s, P s.
Proof.
  intros H0 H1 H2 s.
  assert (H : P s /\ forall c, P (c :: s)).
  { induction s as [|d t [IHa IHb]]; split; auto. }
  apply H.
Qed.

Lemma replace_single (a b : char) (s : pystr) :
  PyStr.replace [a] [b] s = map (fun c => if (c =? a)%N then b else c) s.
Proof.
  unfold PyStr.replace.
  induction s as [|c t IH]; [reflexivity|].
  cbn [PyStr.replace_from PyStr.startswith length Nat.sub map].
  rewrite N.eqb_sym, andb_true_r.
  destruct (c =? a)%N; cbn [app]; now rewrite IH.
Qed.

(** Two identities of Python strings, as a check of [split] and [replace]:
    [sep.join(s.split(sep)) == s] and
    [s.replace(old, new) == new.join(s.split(old))]. *)

Lemma startswith_inv (p s : pystr) :
  PyStr.startswith p s = true -> exists r, s = p ++ r.
Proof.
  revert s. induction p as [|a p IH]; intros s H; [now exists s|].
  destruct s as [|b s]; [discriminate|]. cbn [PyStr.startswith] in H.
  apply andb_true_iff in H as [E H]. apply N.eqb_eq in E. subst b.
  destruct (IH s H) as [r ->]. now exists r.
Qed.

Lemma split_from_cons (k : nat) (sep cur s : pystr) :
  exists p rest, PyStr.split_from k sep cur s = p :: rest.
Proof.
  revert k cur. induction s as [|c s IH]; intros k cur; [now eexists; eexists|].
  cbn [PyStr.split_from]. destruct k as [|k]; [|apply IH].
  destruct (PyStr.startswith sep (c :: s)); [now eexists; eexists|apply IH].
Qed.

Lemma join_cons (sep p : pystr) (k : nat) (sep' cur s : pystr) :
  PyStr.join sep (p :: PyStr.split_from k sep' cur s)
  = p ++ sep ++ PyStr.join sep (PyStr.split_from k sep' cur s).
Proof.
  destruct (split_from_cons k sep' cur s) as [q [rest ->]]. reflexivity.
Qed.

Lemma join_split_from (sep : pystr) : sep <> [] ->
  forall s k cur, (k <= length s)%nat ->
    PyStr.join sep (PyStr.split_from k sep cur s) = rev cur ++ skipn k s.
Proof.
  intros Hsep. induction s as [|c s IH]; intros k cur Hk.
  - destruct k; [|cbn in Hk; lia]. cbn. now rewrite app_nil_r.
  - cbn [PyStr.split_from]. destruct k as [|k].
    + destruct (PyStr.startswith sep (c :: s)) eqn:E.
      * apply startswith_inv in E as [r E].
        destruct sep as [|a sep']; [contradiction|].
        cbn [app] in E. injection E as <- ->.
        rewrite join_cons, IH
          by (cbn [length]; rewrite length_app; lia).
        cbn [length Nat.sub rev app]. rewrite Nat.sub_0_r.
        rewrite skipn_app, Nat.sub_diag, skipn_all. reflexivity.
      * rewrite IH by lia. cbn [rev skipn]. now rewrite <- app_assoc.
    + cbn [length] in Hk. rewrite IH by lia. reflexivity.
Qed.

Lemma join_split (sep s : pystr) :
  sep <> [] -> PyStr.join sep (PyStr.split sep s) = s.
Proof.
  intros H. unfold PyStr.split. now rewrite join_split_from by (assumption || lia).
Qed.

Lemma replace_join_split_from (old new : pystr) :
  forall s k cur,
    PyStr.join new (PyStr.split_from k old cur s)
    = rev cur ++ PyStr.replace_from k old new s.
Proof.
  induction s as [|c s IH]; intros k cur.
  - cbn. now rewrite app_nil_r.
  - cbn [PyStr.split_from PyStr.replace_from]. destruct k as [|k]; [|apply IH].
    destruct (PyStr.startswith old (c :: s)).
    + now rewrite join_cons, IH.
    + rewrite IH. cbn [rev]. now rewrite <- app_assoc.
Qed.

Lemma replace_join_split (old new s : pystr) :
  old <> [] ->
  PyStr.replace old new s = PyStr.join new (PyStr.split old s).
Proof.
  intros H. destruct old as [|a old]; [contradiction|].
  unfold PyStr.replace, PyStr.split. now rewrite replace_join_split_from.
Qed.

Lemma normalize_newlines_form (s : pystr) :
  normalize_newlines s = newline_form s.
Proof.
  unfold normalize_newlines. rewrite replace_single.
  unfold PyStr.replace.
  induction s as [|c|c d t IH1 IH2] using two_step_ind.
  - reflexivity.
  - cbn [PyStr.replace_from PyStr.startswith length Nat.sub newline_form].
    rewrite andb_false_r. cbn [map]. now destruct (c =? CR)%N.
  - cbn [PyStr.replace_from PyStr.startswith length Nat.sub newline_form].
    rewrite andb_true_r, (N.eqb_sym CR c), (N.eqb_sym LF d).
    destruct (c =? CR)%N eqn:Ec; cbn [andb].
    + destruct (d =? LF)%N eqn:Ed.
      * cbn [app map]. apply N.eqb_eq in Ed. subst d.
        f_equal. exact IH1.
      * cbn [map]. rewrite Ec. f_equal. exact IH2.
    + cbn [map]. rewrite Ec. f_equal. exact IH2.
Qed.

(** ** Escaping *)

Lemma not_special_neq (c : char) :
  c <> chr "{" -> c <> chr "}" -> c <> chr "+" -> c <> chr "^" ->
  c <> chr "%" -> c <> chr "(" -> c <> chr ")" ->
  dict_get special c = None.
Proof.
  intros. unfold special. cbn [dict_get].
  repeat match goal with
         | |- context [(?k =? c)%N] =>
             destruct (N.eqb_spec k c); [congruence|]
         end.
  reflexivity.
Qed.

Lemma read_keys_escape (u : pystr) :
  read_keys (PyStr.join_empty (map escape_char u)) = Some (map token_of_char u).
Proof.
  unfold read_keys, PyStr.join_empty.
  induction u as [|c u IH]; [reflexivity|].
  cbn [map concat].
  destruct (N.eq_dec c (chr "{")); [subst; cbn; now rewrite IH|].
  destruct (N.eq_dec c (chr "}")); [subst; cbn; now rewrite IH|].
  destruct (N.eq_dec c (chr "+")); [subst; cbn; now rewrite IH|].
  destruct (N.eq_dec c (chr "^")); [subst; cbn; now rewrite IH|].
  destruct (N.eq_dec c (chr "%")); [subst; cbn; now rewrite IH|].
  destruct (N.eq_dec c (chr "(")); [subst; cbn; now rewrite IH|].
  destruct (N.eq_dec c (chr ")")); [subst; cbn; now rewrite IH|].
  destruct (N.eq_dec c LF); [subst; cbn; now rewrite IH|].
  assert (Hs : is_special c = false)
    by (unfold is_special; now rewrite not_special_neq).
  assert (He : escape_char c = [c]).
  { unfold escape_char. rewrite not_special_neq by assumption.
    destruct (N.eqb_spec c LF); [congruence|reflexivity]. }
  assert (Ht : token_of_char c = Plain c).
  { unfold token_of_char. rewrite Hs.
    destruct (N.eqb_spec c LF); [congruence|reflexivity]. }
  rewrite He, Ht.
  cbn [app read_keys_from].
  replace (find _ escape_table) with (@None (pystr * key_token)).
  - now rewrite Hs, IH.
  - unfold escape_table. cbn [find fst str list_ascii_of_string map PyStr.startswith].
    assert (E : (chr "{" =? c)%N = false) by (apply N.eqb_neq; congruence).
    change (N_of_ascii "{") with (chr "{"). rewrite E. reflexivity.
Qed.

Lemma token_char_of_char (u : pystr) :
  map token_char (map token_of_char u) = u.
Proof.
  induction u as [|c u IH]; [reflexivity|].
  cbn [map]. rewrite IH. f_equal.
  unfold token_of_char.
  destruct (is_special c); [reflexivity|].
  destruct (N.eqb_spec c LF); [now subst|reflexivity].
Qed.

Lemma count_enter_newline_form (s : pystr) :
  length (filter is_enter (map token_of_char (newline_form s)))
  = count_newlines s.
Proof.
  assert (Hlf : token_of_char LF = Enter) by reflexivity.
  assert (Hpl : forall c, c <> CR -> c <> LF ->
                          is_enter (token_of_char c) = false).
  { intros c H1 H2. unfold token_of_char.
    destruct (is_special c); [reflexivity|].
    destruct (N.eqb_spec c LF); [congruence|reflexivity]. }
  induction s as [|c|c d t IH1 IH2] using two_step_ind.
  - reflexivity.
  - cbn [newline_form count_newlines].
    destruct (N.eqb_spec c CR); [reflexivity|].
    destruct (N.eqb_spec c LF); [subst; reflexivity|].
    cbn [map filter]. now rewrite Hpl.
  - cbn [newline_form count_newlines] in *.
    destruct (N.eqb_spec c CR).
    + destruct (N.eqb_spec d LF).
      * cbn [map filter]. rewrite Hlf. cbn [is_enter length]. now rewrite IH1.
      * cbn [map filter]. rewrite Hlf. cbn [is_enter length]. now rewrite IH2.
    + destruct (N.eqb_spec c LF).
      * subst c. cbn [map filter]. rewrite Hlf. cbn [is_enter length].
        now rewrite IH2.
      * cbn [map filter]. rewrite Hpl by assumption. exact IH2.
Qed.

Lemma newline_form_without_cr (text : pystr) :
  existsb (N.eqb CR) text = false -> newline_form text = text.
Proof.
  induction text as [|c t IH]; [reflexivity|].
  cbn [existsb newline_form]. intros H.
  apply orb_false_iff in H as [Hc Ht]. rewrite N.eqb_sym in Hc.
  rewrite Hc. f_equal. now apply IH.
Qed.

(** C1. Reading the output of [escape_for_type_keys] backwards (each brace
    token as the key it stands for, [{ENTER}] as a newline) succeeds, which
    means that no special character is left unescaped, and gives back the
    text with its newlines normalized: every character other than a newline is
    reproduced (a text without ["\r"] comes back as it is), and every newline
    of the input (["\n"], ["\r"] or ["\r\n"]) has become exactly one
    [{ENTER}] token. *)
Theorem escape_for_type_keys_reversible (text : pystr) :
  read_keys (escape_for_type_keys text)
    = Some (map token_of_char (newline_form text))
  /\ reverse_escape (escape_for_type_keys text) = Some (newline_form text)
  /\ (if existsb (N.eqb CR) text then True
      else reverse_escape (escape_for_type_keys text) = Some text)
  /\ normalize_newlines text = newline_form text
  /\ count_enter (escape_for_type_keys text) = count_newlines text.
Proof.
  assert (R : read_keys (escape_for_type_keys text)
              = Some (map token_of_char (newline_form text))).
  { unfold escape_for_type_keys. cbv zeta.
    now rewrite read_keys_escape, normalize_newlines_form. }
  assert (E : reverse_escape (escape_for_type_keys text)
              = Some (newline_form text)).
  { unfold reverse_escape. rewrite R. cbn [option_map].
    now rewrite token_char_of_char. }
  split; [exact R|]. split; [exact E|]. split; [|split].
  - destruct (existsb (N.eqb CR) text) eqn:Hcr; [exact I|].
    now rewrite E, newline_form_without_cr.
  - apply normalize_newlines_form.
  - unfold count_enter. rewrite R. apply count_enter_newline_form.
Qed.

(** ** [int] *)

Section PyIntFacts.

Variable decimal : char -> option N.
Variable max_str_digits : nat.
Hypothesis max_ok : valid_max_str_digits max_str_digits.

Lemma py_int_only_ValueError (s : pystr) (e : exn) :
  py_int decimal max_str_digits s = Raise e -> e = ValueError.
Proof.
  unfold py_int, parse_long, bind.
  destruct (skip_spaces _) as [|c s'].
  - cbn. now inversion 1.
  - destruct (if (c =? chr "+")%N then _ else _) as [sg r].
    destruct (PyStr.startswith _ r); [now inversion 1|].
    destruct (scan_digits _ _ _ r) as [[[v n] rest]|]; [|now inversion 1].
    destruct n; [now inversion 1|].
    destruct (skip_spaces rest); [|now inversion 1].
    destruct (exceeds_max_str_digits _ _); now inversion 1.
Qed.

Lemma within_max_str_digits (n : nat) :
  (n <= 640)%nat -> exceeds_max_str_digits max_str_digits n = false.
Proof.
  intros Hn. unfold exceeds_max_str_digits.
  destruct max_ok as [-> | H]; [reflexivity|].
  apply andb_false_iff. right. apply Nat.ltb_ge. lia.
Qed.

Lemma py_int_ok (s : pystr) (v : Z) (n : nat) :
  parse_long (transform_decimal_and_space decimal s) = Ok (v, n) ->
  (n <= 640)%nat ->
  py_int decimal max_str_digits s = Ok v.
Proof.
  intros H Hn. unfold py_int. rewrite H. cbn [bind].
  now rewrite within_max_str_digits.
Qed.

End PyIntFacts.

(** ** Dates *)

Lemma datetime_new_ok (y m d : Z) :
  (1 <= y <= 9999)%Z -> (1 <= m <= 12)%Z ->
  (1 <= d <= days_in_month y m)%Z ->
  datetime_new y m d = Ok (mk_datetime y m d 0 0 0 0).
Proof.
  intros Hy Hm Hd. unfold datetime_new.
  assert (Hdim : (days_in_month y m <= 31)%Z).
  { unfold days_in_month.
    destruct (m =? 2)%Z; [destruct (is_leap y); lia|].
    destruct (_ || _); lia. }
  assert (F : forall z, (1 <= z <= 9999)%Z -> fits_c_int z = true).
  { intros z Hz. unfold fits_c_int. apply andb_true_iff.
    split; [apply Z.leb_le | apply Z.ltb_lt]; lia. }
  rewrite !F by lia. cbn [andb negb].
  replace ((1 <=? y) && (y <=? 9999))%Z with true
    by (symmetry; apply andb_true_iff; split; apply Z.leb_le; lia).
  replace ((1 <=? m) && (m <=? 12))%Z with true
    by (symmetry; apply andb_true_iff; split; apply Z.leb_le; lia).
  replace ((1 <=? d) && (d <=? days_in_month y m))%Z with true
    by (symmetry; apply andb_true_iff; split; apply Z.leb_le; lia).
  reflexivity.
Qed.

Section PromptFacts.

Variable decimal : char -> option N.
Variable max_str_digits : nat.
Hypothesis max_ok : valid_max_str_digits max_str_digits.

Local Abbreviation int := (py_int decimal max_str_digits).
Local Abbreviation ask := (prompt_for_date decimal max_str_digits).

Lemma int_2024 : int (str "2024") = Ok 2024%Z.
Proof. apply py_int_ok with (n := 4%nat); [assumption|reflexivity|lia]. Qed.

Lemma int_03 : int (str "03") = Ok 3%Z.
Proof. apply py_int_ok with (n := 2%nat); [assumption|reflexivity|lia]. Qed.

Lemma int_05 : int (str "05") = Ok 5%Z.
Proof. apply py_int_ok with (n := 2%nat); [assumption|reflexivity|lia]. Qed.

Lemma prompt_ymd (today : datetime) :
  ask today (str "2024/03/05") = Ok (mk_datetime 2024 3 5 0 0 0 0).
Proof.
  unfold prompt_for_date, parse_date.
  change (PyStr.strip (str "2024/03/05")) with (str "2024/03/05").
  change (PyStr.split _ _) with [str "2024"; str "03"; str "05"].
  cbn [date_of_parts]. rewrite int_2024, int_03, int_05. reflexivity.
Qed.

Lemma prompt_md (today : datetime) :
  (1 <= year today <= 9999)%Z ->
  ask today (str "03/05") = Ok (mk_datetime (year today) 3 5 0 0 0 0).
Proof.
  intros Hy. unfold prompt_for_date, parse_date.
  change (PyStr.strip (str "03/05")) with (str "03/05").
  change (PyStr.split _ _) with [str "03"; str "05"].
  cbn [date_of_parts]. rewrite int_03, int_05. cbn [bind].
  rewrite datetime_new_ok; [reflexivity|lia|lia|].
  change (days_in_month (year today) 3) with 31%Z. lia.
Qed.

Lemma prompt_total (today : datetime) (line : pystr) :
  exists d, ask today line = Ok d.
Proof.
  unfold prompt_for_date.
  destruct (PyStr.strip line); [now eexists|].
  destruct (parse_date _ _ _ _); now eexists.
Qed.

Lemma prompt_fallback (today : datetime) (line : pystr) (e : exn) :
  parse_date decimal max_str_digits today (PyStr.strip line) = Raise e ->
  ask today line = Ok today.
Proof.
  intros H. unfold prompt_for_date.
  destruct (PyStr.strip line); [reflexivity|]. now rewrite H.
Qed.

End PromptFacts.

(** C3. [prompt_for_date] returns 5 March 2024 for ["2024/03/05"], 5 March of
    the current year for ["03/05"], today's date for an empty line and for
    ["abcd"]; it returns (never raises) for every line, and returns today's
    date whenever parsing the line fails. *)
Theorem prompt_for_date_parses
  (decimal : char -> option N) (max_str_digits : nat) (today : datetime)
  (max_ok : valid_max_str_digits max_str_digits)
  (today_ok : valid_datetime today) :
  let ask := prompt_for_date decimal max_str_digits today in
  ask (str "2024/03/05") = Ok (mk_datetime 2024 3 5 0 0 0 0)
  /\ ask (str "03/05") = Ok (mk_datetime (year today) 3 5 0 0 0 0)
  /\ ask (str "") = Ok today
  /\ ask (str "abcd") = Ok today
  /\ (forall line, exists d, ask line = Ok d)
  /\ (forall line e,
        parse_date decimal max_str_digits today (PyStr.strip line) = Raise e ->
        ask line = Ok today).
Proof.
  cbv zeta. repeat split.
  - now apply prompt_ymd.
  - apply prompt_md; [assumption|]. apply today_ok.
  - apply prompt_total.
  - intros line e. apply prompt_fallback.
Qed.

Lemma prompt_for_date_parses_witness :
  let today := mk_datetime 2026 11 4 9 30 0 0 in
  let ask := prompt_for_date (fun _ => None) 4300 today in
  ask (str "2024/03/05") = Ok (mk_datetime 2024 3 5 0 0 0 0)
  /\ ask (str "03/05") = Ok (mk_datetime 2026 3 5 0 0 0 0)
  /\ ask (str "") = Ok today
  /\ ask (str "abcd") = Ok today
  /\ (forall line, exists d, ask line = Ok d)
  /\ (forall line e,
        parse_date (fun _ => None) 4300 today (PyStr.strip line) = Raise e ->
        ask line = Ok today).
Proof.
  apply (@prompt_for_date_parses (fun _ => None) 4300%nat
           (mk_datetime 2026 11 4 9 30 0 0)).
  - right. lia.
  - unfold valid_datetime. cbn. lia.
Defined.

(** ** Dashes in dates *)

Lemma replace_dash (s : pystr) :
  PyStr.replace (str "-") (str "/") s = map dash_to_slash s.
Proof. exact (replace_single (chr "-") (chr "/") s). Qed.

Lemma isspace_dash_to_slash (c : char) :
  PyStr.isspace (dash_to_slash c) = PyStr.isspace c.
Proof.
  unfold dash_to_slash.
  destruct (N.eqb_spec c (chr "-")); [subst; reflexivity|reflexivity].
Qed.

Lemma lstrip_dash (s : pystr) :
  PyStr.lstrip (map dash_to_slash s) = map dash_to_slash (PyStr.lstrip s).
Proof.
  induction s as [|c s IH]; [reflexivity|].
  cbn [map PyStr.lstrip]. rewrite isspace_dash_to_slash.
  destruct (PyStr.isspace c); [exact IH|reflexivity].
Qed.

Lemma strip_dash (s : pystr) :
  PyStr.strip (map dash_to_slash s) = map dash_to_slash (PyStr.strip s).
Proof.
  unfold PyStr.strip, PyStr.rstrip.
  now rewrite lstrip_dash, <- map_rev, lstrip_dash, map_rev.
Qed.

Lemma dash_to_slash_twice (s : pystr) :
  map dash_to_slash (map dash_to_slash s) = map dash_to_slash s.
Proof.
  rewrite map_map. apply map_ext. intros c. unfold dash_to_slash.
  destruct (N.eqb_spec c (chr "-")); [reflexivity|].
  destruct (N.eqb_spec c (chr "-")); [contradiction|reflexivity].
Qed.

Lemma prompt_for_date_replace_dash decimal max_str_digits today line :
  prompt_for_date decimal max_str_digits today
    (PyStr.replace (str "-") (str "/") line)
  = prompt_for_date decimal max_str_digits today line.
Proof.
  unfold prompt_for_date. rewrite replace_dash, strip_dash.
  destruct (PyStr.strip line) as [|c u]; [reflexivity|].
  cbn [map]. change (dash_to_slash c :: map dash_to_slash u)
    with (map dash_to_slash (c :: u)).
  unfold parse_date. now rewrite !replace_dash, dash_to_slash_twice.
Qed.

(** C9. [prompt_for_date] turns every ["-"] of the line into ["/"] before it
    splits: a line and the same line with slashes for dashes give the same
    result, and ["2024-03-05"] gives 5 March 2024 as ["2024/03/05"] does. *)
Theorem prompt_for_date_accepts_dashes
  (decimal : char -> option N) (max_str_digits : nat) (today : datetime)
  (max_ok : valid_max_str_digits max_str_digits) :
  let ask := prompt_for_date decimal max_str_digits today in
  ask (str "2024-03-05") = Ok (mk_datetime 2024 3 5 0 0 0 0)
  /\ ask (str "2024-03-05") = ask (str "2024/03/05")
  /\ (forall line,
        ask line = ask (PyStr.replace (str "-") (str "/") line)).
Proof.
  cbv zeta.
  assert (E : prompt_for_date decimal max_str_digits today (str "2024-03-05")
              = prompt_for_date decimal max_str_digits today (str "2024/03/05")).
  { rewrite <- (prompt_for_date_replace_dash _ _ _ (str "2024-03-05")).
    reflexivity. }
  split; [|split].
  - rewrite E. now apply prompt_ymd.
  - exact E.
  - intros line. now rewrite prompt_for_date_replace_dash.
Qed.

Lemma prompt_for_date_accepts_dashes_witness :
  let ask :=
    prompt_for_date (fun _ => None) 4300 (mk_datetime 2026 11 4 9 30 0 0) in
  ask (str "2024-03-05") = Ok (mk_datetime 2024 3 5 0 0 0 0)
  /\ ask (str "2024-03-05") = ask (str "2024/03/05")
  /\ (forall line,
        ask line = ask (PyStr.replace (str "-") (str "/") line)).
Proof.
  apply (@prompt_for_date_accepts_dashes (fun _ => None) 4300%nat
           (mk_datetime 2026 11 4 9 30 0 0)).
  right. lia.
Defined.

(** ** The report count *)

Section CountFacts.

Variable decimal : char -> option N.
Variable max_str_digits : nat.

Local Abbreviation int := (py_int decimal max_str_digits).
Local Abbreviation read := (read_num_reports decimal max_str_digits).

Lemma read_num_reports_cases (line : pystr) :
  match int (PyStr.strip line) with
  | Ok n => read line = Ok (if n <? 1 then 1 else n)
  | Raise _ => read line = Ok 1
  end.
Proof.
  unfold read_num_reports.
  destruct (int (PyStr.strip line)) as [n|e] eqn:E; [reflexivity|].
  apply py_int_only_ValueError in E. now subst e.
Qed.

Lemma read_num_reports_total (line : pystr) :
  exists n, read line = Ok n /\ 1 <= n.
Proof.
  pose proof (read_num_reports_cases line) as H.
  destruct (int (PyStr.strip line)) as [n|e].
  - eexists; split; [exact H|]. destruct (Z.ltb_spec n 1); lia.
  - exists 1. split; [exact H|lia].
Qed.

Lemma all_ascii_digits (ds : pystr) :
  forallb is_ascii_digit ds = true ->
  forallb (fun ch => ch <? 128)%N ds = true.
Proof.
  intros H. apply forallb_forall. intros c Hc.
  rewrite forallb_forall in H. specialize (H c Hc).
  unfold is_ascii_digit in H. apply andb_true_iff in H as [_ H].
  apply N.leb_le in H. apply N.ltb_lt. change (chr "9") with 57%N in H. lia.
Qed.

Lemma scan_ascii_digits (ds : pystr) (acc : Z) (n : nat) :
  forallb is_ascii_digit ds = true -> 0 <= acc ->
  exists v, scan_digits false acc n ds = Some (v, (n + length ds)%nat, [])
            /\ 0 <= v.
Proof.
  revert acc n. induction ds as [|c ds IH]; intros acc n H Hacc.
  - exists acc. cbn. rewrite Nat.add_0_r. now split.
  - cbn [forallb] in H. apply andb_true_iff in H as [Hc H].
    cbn [scan_digits length]. unfold is_ascii_digit in Hc.
    unfold digit_value. rewrite Hc.
    apply andb_true_iff in Hc as [H1 H2]. apply N.leb_le in H1, H2.
    change (chr "0") with 48%N in *. change (chr "9") with 57%N in *.
    destruct (N.eqb_spec c (chr "_")) as [->|_];
      [change (chr "_") with 95%N in H2; lia|].
    destruct (IH (10 * acc + Z.of_N (c - 48)) (S n) H ltac:(lia))
      as [v [Hv Hv0]].
    exists v. rewrite Hv. split; [|assumption].
    do 3 f_equal. lia.
Qed.

End CountFacts.

(** *** Lines that are no integer *)

Lemma In_lstrip (c : char) (s : pystr) :
  In c s -> PyStr.isspace c = false -> In c (PyStr.lstrip s).
Proof.
  intros Hin Hc. induction s as [|a s IH]; [assumption|].
  cbn [PyStr.lstrip]. destruct (PyStr.isspace a) eqn:Ea; [|assumption].
  destruct Hin as [->|Hin]; [congruence|auto].
Qed.

Lemma In_strip (c : char) (s : pystr) :
  In c s -> PyStr.isspace c = false -> In c (PyStr.strip s).
Proof.
  intros Hin Hc. unfold PyStr.strip, PyStr.rstrip.
  apply in_rev. rewrite rev_involutive.
  apply In_lstrip; [|assumption]. apply in_rev. rewrite rev_involutive.
  now apply In_lstrip.
Qed.

Lemma non_numeric_rejected (c : char) :
  non_numeric_char c = true ->
  rejected_char c = true /\ PyStr.isspace c = false /\ (c < 127)%N.
Proof.
  unfold non_numeric_char, rejected_char. intros H.
  repeat (apply andb_true_iff in H; destruct H as [H ?]).
  apply N.ltb_lt in H.
  assert (Hs : PyStr.isspace c = false) by now apply negb_true_iff.
  repeat split; [|assumption|assumption].
  repeat (apply andb_true_iff; split); try assumption.
  apply negb_true_iff. unfold c_isspace. unfold PyStr.isspace in Hs.
  repeat (apply orb_false_iff in Hs; destruct Hs as [Hs ?]).
  apply orb_false_iff. split; [assumption|].
  apply N.eqb_neq. intros ->. discriminate.
Qed.

Section RejectFacts.

Variable decimal : char -> option N.

Lemma transform_loop_rejected (c : char) (s : pystr) :
  In c s -> non_numeric_char c = true ->
  exists b, In b (transform_loop decimal s) /\ rejected_char b = true.
Proof.
  intros Hin Hc. destruct (non_numeric_rejected c Hc) as [Hr [_ Hlt]].
  induction s as [|a s IH]; [contradiction|].
  cbn [transform_loop].
  destruct (N.ltb_spec a 127).
  - destruct Hin as [->|Hin].
    + exists c. split; [now left|assumption].
    + destruct (IH Hin) as [b [Hb1 Hb2]]. exists b. split; [now right|assumption].
  - assert (Hin' : In c s) by (destruct Hin as [->|Hin]; [lia|assumption]).
    destruct (IH Hin') as [b [Hb1 Hb2]].
    destruct (PyStr.isspace a).
    + exists b. split; [now right|assumption].
    + destruct (decimal a).
      * exists b. split; [now right|assumption].
      * exists (chr "?"). split; [now left|reflexivity].
Qed.

Lemma transform_rejected (c : char) (s : pystr) :
  In c s -> non_numeric_char c = true ->
  exists b, In b (transform_decimal_and_space decimal s)
            /\ rejected_char b = true.
Proof.
  intros Hin Hc. unfold transform_decimal_and_space.
  match goal with |- context [forallb ?f s] => destruct (forallb f s) end.
  - exists c. split; [assumption|]. now apply non_numeric_rejected.
  - now apply transform_loop_rejected with (c := c).
Qed.

End RejectFacts.

Lemma rejected_char_facts (b : char) :
  rejected_char b = true ->
  c_isspace b = false /\ digit_value b = None /\ b <> chr "+"
  /\ b <> chr "-" /\ b <> chr "_".
Proof.
  unfold rejected_char. intros H.
  repeat (apply andb_true_iff in H; destruct H as [H ?]).
  repeat match goal with
         | H : negb _ = true |- _ => apply negb_true_iff in H
         end.
  repeat split; try (now apply N.eqb_neq); try assumption.
  unfold digit_value. unfold is_ascii_digit in H. now rewrite H.
Qed.

Lemma In_skip_spaces (b : char) (s : pystr) :
  In b s -> c_isspace b = false -> In b (skip_spaces s).
Proof.
  intros Hin Hb. induction s as [|a s IH]; [assumption|].
  cbn [skip_spaces]. destruct (c_isspace a) eqn:Ea; [|assumption].
  destruct Hin as [->|Hin]; [congruence|auto].
Qed.

Lemma scan_digits_keeps (b : char) (s : pystr) :
  rejected_char b = true -> In b s ->
  forall prev acc n,
    match scan_digits prev acc n s with
    | Some (_, _, rest) => In b rest
    | None => True
    end.
Proof.
  intros Hb Hin. destruct (rejected_char_facts b Hb) as [_ [Hd [_ [_ Hu]]]].
  induction s as [|a s IH]; [contradiction|].
  intros prev acc n. cbn [scan_digits].
  destruct (N.eqb_spec a (chr "_")) as [->|Ha].
  - destruct prev; [exact I|].
    apply IH. destruct Hin as [E|Hin]; [congruence|assumption].
  - destruct (digit_value a) as [d|] eqn:Ed.
    + apply IH. destruct Hin as [E|Hin]; [congruence|assumption].
    + destruct prev; [exact I|assumption].
Qed.

Lemma parse_long_rejected (b : char) (s : pystr) :
  rejected_char b = true -> In b s -> parse_long s = Raise ValueError.
Proof.
  intros Hb Hin. destruct (rejected_char_facts b Hb) as [Hs [_ [Hp [Hm _]]]].
  unfold parse_long.
  pose proof (In_skip_spaces b s Hin Hs) as H1.
  destruct (skip_spaces s) as [|a s1]; [contradiction|].
  assert (H2 : In b (snd (if (a =? chr "+")%N then (1, s1)
                          else if (a =? chr "-")%N then (-1, s1)
                          else (1, a :: s1)))).
  { destruct (N.eqb_spec a (chr "+")) as [->|];
      [destruct H1 as [E|H1]; [congruence|assumption]|].
    destruct (N.eqb_spec a (chr "-")) as [->|];
      [destruct H1 as [E|H1]; [congruence|assumption]|].
    assumption. }
  destruct (if (a =? chr "+")%N then _ else _) as [sg s2]. cbn [snd] in H2.
  destruct (PyStr.startswith _ s2); [reflexivity|].
  pose proof (scan_digits_keeps b s2 Hb H2 false 0 0%nat) as H3.
  destruct (scan_digits _ _ _ s2) as [[[v n] rest]|]; [|reflexivity].
  destruct n; [reflexivity|].
  pose proof (In_skip_spaces b rest H3 Hs) as H4.
  destruct (skip_spaces rest); [contradiction|reflexivity].
Qed.

Lemma py_int_non_numeric decimal max_str_digits (c : char) (s : pystr) :
  In c s -> non_numeric_char c = true ->
  py_int decimal max_str_digits s = Raise ValueError.
Proof.
  intros Hin Hc.
  destruct (transform_rejected decimal c s Hin Hc) as [b [Hb1 Hb2]].
  unfold py_int. now rewrite (parse_long_rejected b _ Hb2 Hb1).
Qed.

(** *** A minus sign followed by digits *)

Lemma ascii_digit_not_space (c : char) :
  is_ascii_digit c = true -> PyStr.isspace c = false.
Proof.
  intros H. unfold is_ascii_digit in H. apply andb_true_iff in H as [H1 H2].
  apply N.leb_le in H1, H2. change (chr "0") with 48%N in H1.
  change (chr "9") with 57%N in H2. unfold PyStr.isspace.
  repeat (apply orb_false_iff; split);
    try (apply andb_false_iff; right; apply N.leb_gt; lia);
    try (apply andb_false_iff; left; apply N.leb_gt; lia);
    apply N.eqb_neq; lia.
Qed.

Lemma strip_minus_digits (ds : pystr) :
  forallb is_ascii_digit ds = true ->
  PyStr.strip (chr "-" :: ds) = chr "-" :: ds.
Proof.
  intros H. unfold PyStr.strip, PyStr.rstrip.
  change (PyStr.lstrip (chr "-" :: ds)) with (chr "-" :: ds).
  cbn [rev].
  assert (Hr : forallb is_ascii_digit (rev ds) = true).
  { apply forallb_forall. intros c Hc. apply in_rev in Hc.
    rewrite forallb_forall in H. auto. }
  assert (E : PyStr.lstrip (rev ds ++ [chr "-"]) = rev ds ++ [chr "-"]).
  { destruct (rev ds) as [|c r]; [reflexivity|].
    cbn [forallb] in Hr. apply andb_true_iff in Hr as [Hc _].
    cbn [app PyStr.lstrip]. now rewrite ascii_digit_not_space. }
  rewrite E, rev_app_distr, rev_involutive. reflexivity.
Qed.

Lemma parse_long_minus_digits (ds : pystr) :
  ds <> [] -> forallb is_ascii_digit ds = true ->
  exists v, 0 <= v /\ parse_long (chr "-" :: ds) = Ok (- v, length ds).
Proof.
  intros Hne H. unfold parse_long.
  change (skip_spaces (chr "-" :: ds)) with (chr "-" :: ds). cbv beta iota.
  change ((chr "-" =? chr "+")%N) with false.
  change ((chr "-" =? chr "-")%N) with true. cbv beta iota.
  destruct (scan_ascii_digits ds 0 0%nat H ltac:(lia)) as [v [Hv Hv0]].
  destruct ds as [|c ds]; [contradiction|].
  assert (Hc : is_ascii_digit c = true)
    by (cbn [forallb] in H; now apply andb_true_iff in H).
  replace (PyStr.startswith (str "_") (c :: ds)) with false.
  - rewrite Hv. cbn [Nat.add length skip_spaces].
    exists v. split; [assumption|]. now replace (-1 * v) with (- v) by lia.
  - symmetry. cbn [PyStr.startswith str list_ascii_of_string map].
    rewrite andb_true_r. apply N.eqb_neq. intros <-. discriminate.
Qed.

Lemma read_num_reports_minus_digits decimal max_str_digits (ds : pystr) :
  ds <> [] -> forallb is_ascii_digit ds = true ->
  read_num_reports decimal max_str_digits (str "-" ++ ds) = Ok 1.
Proof.
  intros Hne H. change (str "-" ++ ds) with (chr "-" :: ds).
  pose proof (read_num_reports_cases decimal max_str_digits (chr "-" :: ds))
    as HR.
  destruct (py_int _ _ _) as [n|e] eqn:E; [|assumption].
  rewrite HR. rewrite strip_minus_digits in E by assumption.
  unfold py_int, transform_decimal_and_space in E.
  replace (forallb _ (chr "-" :: ds)) with true in E
    by (symmetry; cbn [forallb]; now rewrite all_ascii_digits).
  destruct (parse_long_minus_digits ds Hne H) as [v [Hv0 Hv]].
  rewrite Hv in E. cbn [bind] in E.
  destruct (exceeds_max_str_digits _ _); [discriminate|].
  injection E as <-. destruct (Z.ltb_spec (- v) 1); [reflexivity|lia].
Qed.

Lemma uint_string_digits (d : Decimal.uint) :
  forallb is_ascii_digit (str (NilEmpty.string_of_uint d)) = true.
Proof. induction d; cbn [NilEmpty.string_of_uint]; [reflexivity|exact IHd..]. Qed.

(** *** [int] reads what [str] writes *)

Lemma scan_digits_digit (k : N) (acc : Z) (n : nat) (s : pystr) :
  (k < 10)%N ->
  scan_digits false acc n ((chr "0" + k)%N :: s)
  = scan_digits false (10 * acc + Z.of_N k) (S n) s.
Proof.
  intros Hk. cbn [scan_digits]. change (chr "0") with 48%N.
  change (chr "_") with 95%N.
  destruct (N.eqb_spec (48 + k) 95); [lia|].
  unfold digit_value. change (chr "0") with 48%N. change (chr "9") with 57%N.
  replace ((48 <=? 48 + k)%N && (48 + k <=? 57)%N) with true
    by (symmetry; apply andb_true_iff; split; apply N.leb_le; lia).
  now replace (48 + k - 48)%N with k by lia.
Qed.

Ltac scan_step k :=
  match goal with
  | |- context [str (String ?a ?s)] =>
      change (str (String a s)) with ((chr "0" + k)%N :: str s)
  end;
  rewrite scan_digits_digit by reflexivity.

Lemma scan_uint_acc (d : Decimal.uint) : forall (acc : positive) (n : nat),
  scan_digits false (Z.pos acc) n (str (NilEmpty.string_of_uint d))
  = Some (Z.pos (Pos.of_uint_acc d acc), (n + Decimal.nb_digits d)%nat, []).
Proof.
  induction d; intros acc n;
    cbn [NilEmpty.string_of_uint Pos.of_uint_acc Decimal.nb_digits];
    [cbn; now rewrite Nat.add_0_r|..];
    match goal with
    | |- context [str (String ?a _)] =>
        let k := eval cbv in (N_of_ascii a - 48)%N in scan_step k
    end;
    match goal with
    | |- scan_digits _ ?v _ _ = Some (Z.pos (Pos.of_uint_acc _ ?a), _, _) =>
        replace v with (Z.pos a) by lia
    end;
    rewrite IHd; do 3 f_equal; lia.
Qed.

Lemma scan_uint (d : Decimal.uint) : forall n : nat,
  scan_digits false 0 n (str (NilEmpty.string_of_uint d))
  = Some (Z.of_N (Pos.of_uint d), (n + Decimal.nb_digits d)%nat, []).
Proof.
  induction d; intros n;
    cbn [NilEmpty.string_of_uint Pos.of_uint Decimal.nb_digits];
    [cbn; now rewrite Nat.add_0_r|..];
    match goal with
    | |- context [str (String ?a _)] =>
        let k := eval cbv in (N_of_ascii a - 48)%N in scan_step k
    end;
    [ change (10 * 0 + Z.of_N 0) with 0; rewrite IHd; do 3 f_equal; lia
    | match goal with
      | |- scan_digits _ ?v _ _ = Some (Z.of_N (N.pos (Pos.of_uint_acc _ ?a)), _, _) =>
          change v with (Z.pos a)
      end;
      rewrite scan_uint_acc; do 3 f_equal; lia .. ].
Qed.

Lemma ascii_digit_facts (c : char) :
  is_ascii_digit c = true ->
  c_isspace c = false /\ (c =? chr "+")%N = false /\ (c =? chr "-")%N = false
  /\ (chr "_" =? c)%N = false /\ (c <? 128)%N = true.
Proof.
  unfold is_ascii_digit. intros H. apply andb_true_iff in H as [H1 H2].
  apply N.leb_le in H1, H2. change (chr "0") with 48%N in H1.
  change (chr "9") with 57%N in H2. unfold c_isspace.
  change (chr "+") with 43%N. change (chr "-") with 45%N.
  change (chr "_") with 95%N.
  split; [|split; [|split; [|split]]].
  - apply orb_false_iff. split; [|apply N.eqb_neq; lia].
    apply andb_false_iff. right. apply N.leb_gt. lia.
  - apply N.eqb_neq. lia.
  - apply N.eqb_neq. lia.
  - apply N.eqb_neq. lia.
  - apply N.ltb_lt. lia.
Qed.

(** A run of digits reads as the number the scan gives. *)
Lemma parse_long_digits (ds : pystr) (v : Z) (n : nat) :
  ds <> [] -> forallb is_ascii_digit ds = true ->
  scan_digits false 0 0 ds = Some (v, S n, []) ->
  parse_long ds = Ok (v, S n) /\ parse_long (chr "-" :: ds) = Ok (- v, S n).
Proof.
  intros Hne H Hscan. destruct ds as [|c ds]; [contradiction|].
  cbn [forallb] in H. apply andb_true_iff in H as [Hc _].
  destruct (ascii_digit_facts c Hc) as [Hs [Hp [Hm [Hu _]]]].
  split.
  - unfold parse_long. cbn [skip_spaces]. rewrite Hs, Hp, Hm.
    cbn [PyStr.startswith str list_ascii_of_string map].
    change (N_of_ascii "_") with (chr "_"). rewrite Hu. cbn [andb].
    rewrite Hscan. cbn [skip_spaces]. now replace (1 * v) with v by lia.
  - unfold parse_long.
    change (skip_spaces (chr "-" :: c :: ds)) with (chr "-" :: c :: ds).
    cbv beta iota. change ((chr "-" =? chr "+")%N) with false.
    change ((chr "-" =? chr "-")%N) with true. cbv beta iota.
    cbn [PyStr.startswith str list_ascii_of_string map].
    change (N_of_ascii "_") with (chr "_"). rewrite Hu. cbn [andb].
    rewrite Hscan. cbn [skip_spaces]. now replace (-1 * v) with (- v) by lia.
Qed.

Lemma nilzero_uint_string (d : Decimal.uint) :
  d <> Decimal.Nil ->
  NilZero.string_of_uint d = NilEmpty.string_of_uint d.
Proof. destruct d; [contradiction|reflexivity..]. Qed.

Lemma nb_digits_pos (d : Decimal.uint) :
  d <> Decimal.Nil -> exists n, Decimal.nb_digits d = S n.
Proof. destruct d; [contradiction|now eexists..]. Qed.

Lemma str_nonempty_uint (d : Decimal.uint) :
  d <> Decimal.Nil -> str (NilEmpty.string_of_uint d) <> [].
Proof. destruct d; [contradiction|discriminate..]. Qed.

Lemma length_uint_string (d : Decimal.uint) :
  length (str (NilEmpty.string_of_uint d)) = Decimal.nb_digits d.
Proof.
  induction d; cbn [NilEmpty.string_of_uint Decimal.nb_digits];
    [reflexivity|..];
    change (str (String ?a ?s)) with (N_of_ascii a :: str s);
    cbn [length]; now rewrite IHd.
Qed.

(** [int] reads what [str] writes. *)
Lemma parse_long_py_str_int (z : Z) :
  exists n, parse_long (py_str_int z) = Ok (z, n)
            /\ (n <= length (py_str_int z))%nat.
Proof.
  destruct z as [|p|p]; [exists 1%nat; split; [reflexivity|cbn; lia]|..];
    unfold py_str_int; cbn [Z.to_int NilZero.string_of_int];
    pose proof (Unsigned.to_uint_nonnil p) as Hn;
    rewrite nilzero_uint_string by assumption;
    destruct (nb_digits_pos _ Hn) as [n En];
    pose proof (scan_uint (Pos.to_uint p) 0) as Hs;
    rewrite Unsigned.of_to, En in Hs; cbn [Nat.add] in Hs;
    exists (S n);
    try change (str (String "-" ?s)) with (chr "-" :: str s);
    (split;
     [apply (parse_long_digits _ _ _ (str_nonempty_uint _ Hn)
               (uint_string_digits _) Hs)
     |cbn [length]; rewrite length_uint_string; lia]).
Qed.

Lemma py_str_int_shape (z : Z) :
  exists ds,
    ds <> [] /\ forallb is_ascii_digit ds = true
    /\ py_str_int z = (if z <? 0 then str "-" else []) ++ ds.
Proof.
  exists (str (NilZero.string_of_uint
                 (match z with
                  | 0 => Decimal.D0 Decimal.Nil
                  | Z.pos p | Z.neg p => Pos.to_uint p
                  end))).
  destruct z as [|p|p]; (split; [|split]); try reflexivity;
    try discriminate;
    pose proof (Unsigned.to_uint_nonnil p) as Hn;
    rewrite nilzero_uint_string by assumption;
    (now apply str_nonempty_uint) || apply uint_string_digits.
Qed.

Lemma strip_digits (ds : pystr) :
  forallb is_ascii_digit ds = true -> PyStr.strip ds = ds.
Proof.
  intros H.
  assert (L : forall l, forallb is_ascii_digit l = true -> PyStr.lstrip l = l).
  { intros [|c l] Hl; [reflexivity|]. cbn [forallb] in Hl.
    apply andb_true_iff in Hl as [Hc _]. cbn [PyStr.lstrip].
    now rewrite ascii_digit_not_space. }
  unfold PyStr.strip, PyStr.rstrip. rewrite (L ds H), L, rev_involutive.
  - reflexivity.
  - apply forallb_forall. intros c Hc. apply in_rev in Hc.
    rewrite forallb_forall in H. auto.
Qed.

Section RoundTrip.

Variable decimal : char -> option N.
Variable max_str_digits : nat.
Hypothesis max_ok : valid_max_str_digits max_str_digits.

Lemma py_int_py_str_int (z : Z) :
  (length (py_str_int z) <= 640)%nat ->
  py_int decimal max_str_digits (PyStr.strip (py_str_int z)) = Ok z.
Proof.
  intros Hlen.
  destruct (py_str_int_shape z) as [ds [Hne [Hds E]]].
  assert (Hstrip : PyStr.strip (py_str_int z) = py_str_int z).
  { rewrite E. destruct (z <? 0); [apply strip_minus_digits|apply strip_digits];
      assumption. }
  assert (Hascii : forallb (fun ch => (ch <? 128)%N) (py_str_int z) = true).
  { rewrite E, forallb_app. apply andb_true_iff.
    split; [now destruct (z <? 0)|now apply all_ascii_digits]. }
  rewrite Hstrip.
  destruct (parse_long_py_str_int z) as [n [Hp Hn]].
  apply py_int_ok with (n := n); [assumption| |lia].
  unfold transform_decimal_and_space. now rewrite Hascii.
Qed.

Lemma read_num_reports_py_str_int (z : Z) :
  (length (py_str_int z) <= 640)%nat ->
  read_num_reports decimal max_str_digits (py_str_int z)
  = Ok (if z <? 1 then 1 else z).
Proof.
  intros H. unfold read_num_reports. now rewrite py_int_py_str_int.
Qed.

End RoundTrip.

(** C7. The report count read from the console is 3 for ["3"] (and [n] for
    every integer [n] from 1 on written out in up to 640 characters) and 1 for
    ["0"]; it is 1 for every negative integer written out, for a minus sign
    followed by any digits and for every line [int] reads as a number below 1;
    it is 1 for every line [int] rejects, so for every line with a character
    no integer literal contains; and reading it returns, with a count of at
    least 1, for every line. *)
Theorem read_num_reports_parses
  (decimal : char -> option N) (max_str_digits : nat)
  (max_ok : valid_max_str_digits max_str_digits) :
  let read := read_num_reports decimal max_str_digits in
  let int := py_int decimal max_str_digits in
  read (str "3") = Ok 3
  /\ read (str "0") = Ok 1
  /\ (forall z, 1 <= z -> (length (py_str_int z) <= 640)%nat ->
                 read (py_str_int z) = Ok z)
  /\ (forall z, z < 0 -> read (py_str_int z) = Ok 1)
  /\ (forall ds, ds <> [] -> forallb is_ascii_digit ds = true ->
                 read (str "-" ++ ds) = Ok 1)
  /\ (forall line n, int (PyStr.strip line) = Ok n -> n < 1 ->
                     read line = Ok 1)
  /\ (forall line e, int (PyStr.strip line) = Raise e -> read line = Ok 1)
  /\ (forall line c, In c line -> non_numeric_char c = true ->
                     read line = Ok 1)
  /\ (forall line, exists n, read line = Ok n /\ 1 <= n).
Proof.
  cbv zeta.
  split; [|split; [|split; [|split; [|split; [|split; [|split; [|split]]]]]]].
  - unfold read_num_reports.
    change (PyStr.strip (str "3")) with (str "3").
    now rewrite (py_int_ok decimal max_str_digits max_ok (str "3") 3 1%nat)
      by (reflexivity || lia).
  - unfold read_num_reports.
    change (PyStr.strip (str "0")) with (str "0").
    now rewrite (py_int_ok decimal max_str_digits max_ok (str "0") 0 1%nat)
      by (reflexivity || lia).
  - intros z Hz Hlen. rewrite read_num_reports_py_str_int by assumption.
    destruct (Z.ltb_spec z 1); [lia|reflexivity].
  - intros z Hz. destruct (py_str_int_shape z) as [ds [Hne [Hds E]]].
    rewrite E. replace (z <? 0) with true by (symmetry; now apply Z.ltb_lt).
    now apply read_num_reports_minus_digits.
  - intros ds. apply read_num_reports_minus_digits.
  - intros line n E Hn.
    pose proof (read_num_reports_cases decimal max_str_digits line) as H.
    rewrite E in H. rewrite H.
    destruct (Z.ltb_spec n 1); [reflexivity|lia].
  - intros line e E.
    pose proof (read_num_reports_cases decimal max_str_digits line) as H.
    now rewrite E in H.
  - intros line c Hin Hc.
    pose proof (read_num_reports_cases decimal max_str_digits line) as H.
    assert (Hs : In c (PyStr.strip line)).
    { apply In_strip; [assumption|]. now apply non_numeric_rejected. }
    now rewrite (py_int_non_numeric decimal max_str_digits c _ Hs Hc) in H.
  - apply read_num_reports_total.
Qed.

Lemma read_num_reports_parses_witness :
  let read := read_num_reports (fun _ => None) 4300 in
  let int := py_int (fun _ => None) 4300 in
  read (str "3") = Ok 3
  /\ read (str "0") = Ok 1
  /\ (forall z, 1 <= z -> (length (py_str_int z) <= 640)%nat ->
                 read (py_str_int z) = Ok z)
  /\ (forall z, z < 0 -> read (py_str_int z) = Ok 1)
  /\ (forall ds, ds <> [] -> forallb is_ascii_digit ds = true ->
                 read (str "-" ++ ds) = Ok 1)
  /\ (forall line n, int (PyStr.strip line) = Ok n -> n < 1 ->
                     read line = Ok 1)
  /\ (forall line e, int (PyStr.strip line) = Raise e -> read line = Ok 1)
  /\ (forall line c, In c line -> non_numeric_char c = true ->
                     read line = Ok 1)
  /\ (forall line, exists n, read line = Ok n /\ 1 <= n).
Proof.
  apply (@read_num_reports_parses (fun _ => None) 4300%nat).
  right. lia.
Defined.

(** ** The response text *)

Lemma pystr_eqb_refl (s : pystr) : PyStr.eqb s s = true.
Proof.
  induction s as [|c s IH]; [reflexivity|].
  cbn [PyStr.eqb]. now rewrite N.eqb_refl, IH.
Qed.

Lemma startswith_app (p r : pystr) : PyStr.startswith p (p ++ r) = true.
Proof.
  induction p as [|c p IH]; [reflexivity|].
  cbn [app PyStr.startswith]. now rewrite N.eqb_refl, IH.
Qed.

Lemma skipn_length_app (p r : pystr) : skipn (length p) (p ++ r) = r.
Proof. induction p as [|c p IH]; [reflexivity|exact IH]. Qed.

Lemma split_blank_first (s cur : pystr) :
  first_item (PyStr.split_from 0 [LF; LF] cur s)
  = Ok (rev cur ++ first_paragraph s).
Proof.
  revert cur. induction s as [|c t IH]; intros cur.
  - cbn. now rewrite app_nil_r.
  - cbn [PyStr.split_from first_paragraph].
    destruct (PyStr.startswith [LF; LF] (c :: t)).
    + cbn [first_item]. now rewrite app_nil_r.
    + rewrite IH. cbn [rev]. now rewrite <- app_assoc.
Qed.

Lemma clean_content_paragraph (content : pystr) :
  clean_content content
  = Ok (PyStr.strip (first_paragraph (strip_echoed_prompt content))).
Proof.
  unfold clean_content, PyStr.split. now rewrite split_blank_first.
Qed.

Lemma first_paragraph_no_blank (s : pystr) :
  PyStr.contains [LF; LF] (first_paragraph s) = false.
Proof.
  induction s as [|c t IH]; [reflexivity|].
  cbn [first_paragraph].
  destruct (PyStr.startswith [LF; LF] (c :: t)) eqn:E; [reflexivity|].
  cbn [PyStr.contains]. rewrite IH, orb_false_r.
  cbn [PyStr.startswith] in *.
  destruct (LF =? c)%N; [|reflexivity]. cbn [andb] in *.
  destruct t as [|d t]; [reflexivity|].
  rewrite andb_true_r in E. cbn [first_paragraph].
  destruct (PyStr.startswith [LF; LF] (d :: t)); [reflexivity|].
  now rewrite E.
Qed.

Lemma first_paragraph_split (s : pystr) :
  s = first_paragraph s
  \/ exists tail, s = first_paragraph s ++ [LF; LF] ++ tail.
Proof.
  induction s as [|c t IH]; [now left|].
  cbn [first_paragraph].
  destruct (PyStr.startswith [LF; LF] (c :: t)) eqn:E.
  - right. destruct t as [|d t]; cbn [PyStr.startswith] in E;
      [now rewrite andb_false_r in E|].
    rewrite andb_true_r in E. apply andb_true_iff in E as [E1 E2].
    apply N.eqb_eq in E1, E2. subst. now exists t.
  - destruct IH as [IH | [tail IH]].
    + left. now f_equal.
    + right. exists tail. cbn [app]. now f_equal.
Qed.

(** C2. A response that starts with the prompt and goes on with
    ["Findings: normal.\n\nFindings: normal."] is cleaned to
    ["Findings: normal."].  In general an echoed prompt is cut off (and what
    follows stripped), a response that does not start with the prompt is taken
    as it is, and of that text only what comes before the first blank line is
    kept, stripped. *)
Theorem clean_content_first_paragraph :
  clean_content (prompt ++ findings_normal ++ [LF; LF] ++ findings_normal)
    = Ok findings_normal
  /\ (forall rest,
        clean_content (prompt ++ rest)
        = Ok (PyStr.strip (first_paragraph (PyStr.strip rest))))
  /\ (forall content,
        clean_content content
        = Ok (PyStr.strip (first_paragraph
                (if PyStr.startswith prompt content
                 then PyStr.strip (skipn (length prompt) content)
                 else content))))
  /\ (forall s,
        PyStr.contains [LF; LF] (first_paragraph s) = false
        /\ (s = first_paragraph s
            \/ exists tail, s = first_paragraph s ++ [LF; LF] ++ tail)).
Proof.
  split; [|split; [|split]].
  - vm_compute. reflexivity.
  - intros rest. rewrite clean_content_paragraph. unfold strip_echoed_prompt.
    now rewrite startswith_app, skipn_length_app.
  - intros content. apply clean_content_paragraph.
  - intros s. split; [apply first_paragraph_no_blank|apply first_paragraph_split].
Qed.

(** The same through [analyze_image]: the report file and the value
    returned. *)
Example analyze_image_findings_normal :
  let body :=
    JDict [(str "generated_text",
            JStr (prompt ++ findings_normal ++ [LF; LF] ++ findings_normal))] in
  let w := world_with_response (mk_image 3000 2000) (Body body) in
  let '(w', r) := analyze_image pillow_thumbnail_size w in
  r = Ok (Some findings_normal)
  /\ In (WriteReport findings_normal) (trace w')
  /\ In (HttpPost (1024, 683) prompt) (trace w').
Proof. vm_compute. intuition. Qed.

(** ** The shape of the response *)

(** C5. [analyze_image] accepts a list of objects and a single object.
    From a list it takes what the first object has under ["generated_text"]
    and nothing else: a text under ["text"] is not looked at, and the content
    is the empty string when ["generated_text"] is missing.  From a single
    object it takes what is under ["generated_text"] and, when that is
    missing or empty, what is under ["text"]. *)
Theorem extract_content_by_shape
  (t : pystr) (c : char) (more : list (pystr * json)) (items : list json) :
  extract_content
    (JList (JDict ((str "generated_text", JStr t) :: more) :: items))
  = Ok (JStr t)
  /\ extract_content (JDict ((str "generated_text", JStr (c :: t)) :: more))
     = Ok (JStr (c :: t))
  /\ extract_content (JDict [(str "text", JStr t)]) = Ok (JStr t)
  /\ extract_content
       (JDict [(str "generated_text", JStr []); (str "text", JStr t)])
     = Ok (JStr t)
  /\ extract_content (JList (JDict [(str "text", JStr t)] :: items))
     = Ok (JStr [])
  /\ extract_content (JList (JDict [] :: items)) = Ok (JStr []).
Proof. repeat split. Qed.

(** A list-shaped response with the text under ["text"]: the content is
    empty, not the text, and [analyze_image] returns empty findings. *)
Lemma list_shape_text_not_extracted :
  let body := JList [JDict [(str "text", JStr findings_normal)]] in
  extract_content body = Ok (JStr [])
  /\ extract_content body <> Ok (JStr findings_normal)
  /\ snd (analyze_image pillow_thumbnail_size
            (world_with_response (mk_image 800 600) (Body body)))
     = Ok (Some []).
Proof. vm_compute. repeat split. discriminate. Qed.

(** ** The missing image file *)

(** C10. Without the image file [analyze_image] returns [None] at once:
    it has written its line to the workflow log and done nothing else, so no
    request was sent, no response used up, and neither the report file nor the
    raw output written. *)
Theorem analyze_image_without_file
  (thumbnail : Z * Z -> Z * Z -> Z * Z) (w : world)
  (no_file : image_file w = None) :
  analyze_image thumbnail w
  = (mk_world (LogMessage (LF :: str "=== STEP 3: AI Analysis ===") :: trace w)
       (window_polls w) (clipboard_grabs w) (disk_writable w) (image_file w)
       (http_responses w) (control_texts w),
     Ok None).
Proof.
  unfold analyze_image, io_bind, log_message, emit, open_image_file.
  cbn [image_file]. now rewrite no_file.
Qed.

Lemma analyze_image_without_file_witness :
  let w := mk_world [] [] [] true None [Body (JStr findings_normal)]
             (fun _ => []) in
  image_file w = None
  /\ analyze_image pillow_thumbnail_size w
     = (mk_world [LogMessage (LF :: str "=== STEP 3: AI Analysis ===")]
          [] [] true None [Body (JStr findings_normal)] (fun _ => []),
        Ok None).
Proof.
  split; [reflexivity|].
  exact (analyze_image_without_file pillow_thumbnail_size
           (mk_world [] [] [] true None [Body (JStr findings_normal)]
              (fun _ => []))
           eq_refl).
Defined.

(** ** Resizing *)

Lemma floor_ceil_bounds (a b : Z) :
  0 < b ->
  b * (a / b) <= a < b * (a / b) + b
  /\ a <= b * ceil_div a b < a + b
  /\ a / b <= ceil_div a b <= a / b + 1.
Proof.
  intros Hb. unfold ceil_div.
  pose proof (Z.mul_div_le a b Hb).
  pose proof (Z.mul_succ_div_gt a b Hb).
  pose proof (Z.mul_div_le (- a) b Hb).
  pose proof (Z.mul_succ_div_gt (- a) b Hb).
  nia.
Qed.

Lemma pillow_thumbnail_size_contract : thumbnail_contract pillow_thumbnail_size.
Proof.
  intros x y w h Hx Hy Hw Hh. unfold pillow_thumbnail_size, round_aspect.
  destruct ((x >=? w) && (y >=? h)) eqn:Efit.
  - apply andb_true_iff in Efit as [E1 E2].
    apply Z.geb_le in E1, E2. lia.
  - assert (Hfit : x < w \/ y < h).
    { apply andb_false_iff in Efit as [E|E];
        rewrite Z.geb_leb in E; apply Z.leb_gt in E; lia. }
    destruct (x * h >=? w * y) eqn:Easp.
    + apply Z.geb_le in Easp.
      destruct (floor_ceil_bounds (y * w) h ltac:(lia)) as [F1 [F2 F3]].
      assert (Hyh : y <= h) by nia.
      assert (Hlo : 0 <= y * w / h) by (apply Z.div_pos; nia).
      assert (Hhix : ceil_div (y * w) h <= x) by nia.
      assert (Hhiw : ceil_div (y * w) h <= w) by nia.
      destruct (_ <=? _); split; try split; try lia; nia.
    + rewrite Z.geb_leb in Easp. apply Z.leb_gt in Easp.
      destruct (floor_ceil_bounds (x * h) w ltac:(lia)) as [F1 [F2 F3]].
      assert (Hxw : x <= w) by nia.
      assert (Hlo : 0 <= x * h / w) by (apply Z.div_pos; nia).
      assert (Hhiy : ceil_div (x * h) w <= y) by nia.
      assert (Hhih : ceil_div (x * h) w <= h) by nia.
      destruct (_ || _); split; try split; try lia; nia.
Qed.

Lemma downscale_under_contract
  (thumbnail : Z * Z -> Z * Z -> Z * Z) (w h : Z) :
  thumbnail_contract thumbnail -> 1 <= w -> 1 <= h ->
  let '(w', h') := downscale thumbnail (w, h) in
  Z.max w' h' <= 1024
  /\ Z.abs (w' * h - h' * w) < Z.max w h
  /\ 1 <= w' <= w /\ 1 <= h' <= h
  /\ (if Z.max w h <=? 1024 then (w', h') = (w, h) else True).
Proof.
  intros pillow width_pos height_pos.
  unfold downscale, max_side. cbn [fst snd].
  destruct (Z.max w h >? 1024) eqn:E.
  - pose proof (pillow 1024 1024 w h ltac:(lia) ltac:(lia) width_pos height_pos)
      as P.
    destruct (thumbnail (1024, 1024) (w, h)) as [w' h'].
    rewrite Z.gtb_ltb in E. apply Z.ltb_lt in E.
    replace (Z.max w h <=? 1024) with false by (symmetry; apply Z.leb_gt; lia).
    lia.
  - rewrite Z.gtb_ltb in E. apply Z.ltb_ge in E.
    replace (Z.max w h <=? 1024) with true by (symmetry; apply Z.leb_le; lia).
    replace (w * h - h * w) with 0 by lia.
    repeat split; try reflexivity; lia.
Qed.

(** With Pillow's size computation (in exact arithmetic) for [thumbnail]. *)
Lemma downscale_pillow (w h : Z) :
  1 <= w -> 1 <= h ->
  let '(w', h') := downscale pillow_thumbnail_size (w, h) in
  Z.max w' h' <= 1024
  /\ Z.abs (w' * h - h' * w) < Z.max w h
  /\ 1 <= w' <= w /\ 1 <= h' <= h
  /\ (if Z.max w h <=? 1024 then (w', h') = (w, h) else True).
Proof.
  apply downscale_under_contract, pillow_thumbnail_size_contract.
Qed.

(** C8. Given Pillow's [thumbnail] (no larger than the box, aspect ratio
    kept up to rounding), the image [analyze_image] sends has its longer side
    at most 1024 pixels and the aspect ratio of the original up to the rounding
    of one side, and an image whose longer side is at most 1024 pixels
    already keeps its size. *)
Theorem downscale_fits
  (thumbnail : Z * Z -> Z * Z -> Z * Z) (w h : Z)
  (pillow : thumbnail_contract thumbnail)
  (width_pos : 1 <= w) (height_pos : 1 <= h) :
  let '(w', h') := downscale thumbnail (w, h) in
  Z.max w' h' <= 1024
  /\ Z.abs (w' * h - h' * w) < Z.max w h
  /\ 1 <= w' <= w /\ 1 <= h' <= h
  /\ (if Z.max w h <=? 1024 then (w', h') = (w, h) else True).
Proof. now apply downscale_under_contract. Qed.

Lemma downscale_fits_witness :
  let '(w', h') := downscale pillow_thumbnail_size (3000, 2000) in
  Z.max w' h' <= 1024
  /\ Z.abs (w' * 2000 - h' * 3000) < Z.max 3000 2000
  /\ 1 <= w' <= 3000 /\ 1 <= h' <= 2000
  /\ (if Z.max 3000 2000 <=? 1024 then (w', h') = (3000, 2000) else True).
Proof.
  apply (downscale_fits pillow_thumbnail_size 3000 2000
           pillow_thumbnail_size_contract); lia.
Defined.

(** ** Setting the date pickers *)

Lemma attempts_needed_bound now readings limit :
  (fst (attempts_needed now readings limit) <= limit)%nat.
Proof.
  revert readings. induction limit as [|n IH]; intros readings; [reflexivity|].
  cbn [attempts_needed]. destruct (date_matches now (hd [] readings)).
  - cbn. lia.
  - specialize (IH (tl readings)).
    destruct (attempts_needed now (tl readings) n). cbn [fst] in *. lia.
Qed.

Lemma attempts_needed_pos now readings limit :
  (1 <= fst (attempts_needed now readings (S limit)))%nat.
Proof.
  cbn [attempts_needed]. destruct (date_matches now (hd [] readings)).
  - cbn. lia.
  - destruct (attempts_needed now (tl readings) limit). cbn. lia.
Qed.

Lemma type_date_run dp now w :
  type_date dp now w = (add_events (type_date_events dp now) w, Ok tt).
Proof. reflexivity. Qed.

Lemma read_window_text_run c w :
  read_window_text c w = (pop_text c w, Ok (hd [] (control_texts w c))).
Proof. reflexivity. Qed.

Lemma print_run m w : print m w = (add_events [Print m] w, Ok tt).
Proof. reflexivity. Qed.

Lemma control_texts_pop c w :
  control_texts (pop_text c w) c = tl (control_texts w c).
Proof. cbn. now rewrite Nat.eqb_refl. Qed.

Lemma date_attempts_run n dp now i : forall w,
  exists w' added,
    date_attempts n dp now w
    = (w', Ok (snd (attempts_needed now (control_texts w (control dp)) n)))
    /\ trace w' = added ++ trace w
    /\ clicks added = fst (attempts_needed now (control_texts w (control dp)) n)
    /\ existsb (event_is_print (msg_date_warning i)) added = false.
Proof.
  induction n as [|n IH]; intros w.
  - exists w, []. repeat split.
  - cbn [date_attempts attempts_needed]. unfold io_bind at 1.
    rewrite type_date_run. unfold io_bind at 1.
    rewrite read_window_text_run.
    change (control_texts (add_events _ w) (control dp))
      with (control_texts w (control dp)).
    destruct (date_matches now (hd [] (control_texts w (control dp)))).
    + eexists. exists (type_date_events dp now). repeat split.
    + unfold io_bind at 1. rewrite print_run.
      set (w3 := add_events [Print msg_date_retry]
                   (pop_text (control dp)
                      (add_events (type_date_events dp now) w))).
      destruct (IH w3) as [w' [added [E [T [C W]]]]].
      assert (Htexts : control_texts w3 (control dp)
                       = tl (control_texts w (control dp))).
      { unfold w3. change (control_texts (add_events ?e ?x))
          with (control_texts x). now rewrite control_texts_pop. }
      rewrite Htexts in E, C.
      destruct (attempts_needed now (tl (control_texts w (control dp))) n)
        as [k done].
      exists w', (added ++ Print msg_date_retry :: type_date_events dp now).
      cbn [fst snd] in *. repeat split.
      * exact E.
      * rewrite T. unfold w3. cbn [add_events trace pop_text app].
        now rewrite <- app_assoc.
      * unfold clicks in *. rewrite filter_app, length_app, C. cbn. lia.
      * rewrite existsb_app, W. reflexivity.
Qed.

Lemma set_date_picker_run i dp now w :
  exists w' added,
    set_date_picker i dp now w = (w', Ok tt)
    /\ trace w' = added ++ trace w
    /\ clicks added
       = fst (attempts_needed now (tl (control_texts w (control dp))) 3)
    /\ existsb (event_is_print (msg_date_warning i)) added
       = negb (snd (attempts_needed now (tl (control_texts w (control dp))) 3)).
Proof.
  unfold set_date_picker, io_bind at 1. rewrite read_window_text_run.
  unfold io_bind at 1.
  destruct (date_attempts_run 3 dp now i (pop_text (control dp) w))
    as [w1 [added [E [T [C W]]]]].
  rewrite control_texts_pop in E, C. rewrite E.
  destruct (attempts_needed now (tl (control_texts w (control dp))) 3)
    as [k done].
  cbn [fst snd] in *. destruct done.
  - exists w1, added. repeat split; assumption.
  - unfold io_bind. rewrite print_run, read_window_text_run, print_run.
    eexists.
    exists (Print (msg_date_current
                     (hd [] (control_texts
                               (add_events [Print (msg_date_warning i)] w1)
                               (control dp))) now)
            :: Print (msg_date_warning i) :: added).
    repeat split.
    + cbn [add_events trace pop_text app]. now rewrite T.
    + exact C.
    + cbn [existsb event_is_print negb].
      now rewrite pystr_eqb_refl, orb_true_r.
Qed.

Lemma set_date_pickers_run date_pickers now : forall i w,
  exists w' added,
    set_date_pickers i date_pickers now w = (w', Ok tt)
    /\ trace w' = added ++ trace w
    /\ (length date_pickers <= clicks added <= 3 * length date_pickers)%nat.
Proof.
  induction date_pickers as [|dp rest IH]; intros i w.
  - exists w, []. repeat split; cbn; lia.
  - cbn [set_date_pickers]. unfold io_bind.
    destruct (set_date_picker_run i dp now w) as [w1 [a1 [E1 [T1 [C1 _]]]]].
    rewrite E1.
    destruct (IH (S i) w1) as [w2 [a2 [E2 [T2 C2]]]].
    exists w2, (a2 ++ a1). split; [exact E2|]. split.
    + now rewrite T2, T1, app_assoc.
    + unfold clicks in *. rewrite filter_app, length_app, C1. cbn [length].
      pose proof (attempts_needed_bound now
                    (tl (control_texts w (control dp))) 3) as B.
      pose proof (attempts_needed_pos now
                    (tl (control_texts w (control dp))) 2) as B1.
      lia.
Qed.

(** C6. For every date picker the routine makes between one and three
    attempts (click and type): as many as it takes for the text read back
    after an attempt to hold the expected ["Y/M/D"], and three if none does.
    When none does it prints the warning; in either case it goes on without
    raising, so that a list of date pickers is worked through to its end. *)
Theorem set_date_picker_retries
  (i : nat) (dp : date_picker) (now : datetime) (w : world) :
  let readings := tl (control_texts w (control dp)) in
  let matches k := date_matches now (nth k readings []) in
  let attempts :=
    if matches 0%nat then 1%nat else if matches 1%nat then 2%nat else 3%nat in
  let verified := matches 0%nat || matches 1%nat || matches 2%nat in
  (exists w' added,
     set_date_picker i dp now w = (w', Ok tt)
     /\ trace w' = added ++ trace w
     /\ clicks added = attempts
     /\ (1 <= attempts <= 3)%nat
     /\ existsb (event_is_print (msg_date_warning i)) added = negb verified)
  /\ (forall date_pickers,
        exists w' added,
          set_date_pickers i date_pickers now w = (w', Ok tt)
          /\ trace w' = added ++ trace w
          /\ (length date_pickers <= clicks added
              <= 3 * length date_pickers)%nat).
Proof.
  cbv zeta. split; [|intros; apply set_date_pickers_run].
  destruct (set_date_picker_run i dp now w) as [w' [added [E [T [C W]]]]].
  exists w', added.
  assert (A : attempts_needed now (tl (control_texts w (control dp))) 3
              = (let r := tl (control_texts w (control dp)) in
                 if date_matches now (nth 0 r []) then (1%nat, true)
                 else if date_matches now (nth 1 r []) then (2%nat, true)
                 else if date_matches now (nth 2 r []) then (3%nat, true)
                 else (3%nat, false))).
  { cbv zeta. cbn [attempts_needed].
    destruct (tl (control_texts w (control dp))) as [|r0 [|r1 [|r2 r]]];
      cbn [hd tl nth];
      repeat match goal with
             | |- context [if date_matches now ?t then _ else _] =>
                 destruct (date_matches now t)
             end; reflexivity. }
  rewrite A in C, W. cbv zeta in C, W.
  split; [exact E|]. split; [exact T|].
  set (r := tl (control_texts w (control dp))) in *.
  destruct (date_matches now (nth 0 r [])); cbn [fst snd orb] in *;
    [repeat split; (assumption || lia)|].
  destruct (date_matches now (nth 1 r [])); cbn [fst snd orb] in *;
    [repeat split; (assumption || lia)|].
  destruct (date_matches now (nth 2 r [])); cbn [fst snd orb] in *;
    repeat split; (assumption || lia).
Qed.

(** ** Extraction without an image *)

Lemma find_none_existsb {A : Type} (f : A -> bool) (l : list A) :
  find f l = None -> existsb f l = false.
Proof.
  induction l as [|a l IH]; [reflexivity|]. cbn.
  destruct (f a); [discriminate|exact IH].
Qed.

Lemma wait_for_pacs_run n : forall w,
  existsb (existsb is_pacs_window) (firstn n (window_polls w)) = true ->
  exists polls pacs_win,
    wait_for_pacs n w = (with_polls polls w, Ok (Some pacs_win)).
Proof.
  induction n as [|n IH]; intros w H; [discriminate|].
  cbn [wait_for_pacs]. unfold io_bind, desktop_windows.
  destruct (window_polls w) as [|ws polls] eqn:Ew; [discriminate|].
  cbn [hd tl firstn existsb] in *.
  destruct (find is_pacs_window ws) as [pacs_win|] eqn:Ef.
  - exists polls, pacs_win. reflexivity.
  - rewrite (find_none_existsb _ _ Ef) in H. cbn [orb] in H.
    destruct (IH (with_polls polls w) H) as [polls' [pacs_win E]].
    exists polls', pacs_win.
    change (mk_world (trace w) polls (clipboard_grabs w) (disk_writable w)
              (image_file w) (http_responses w) (control_texts w))
      with (with_polls polls w).
    rewrite E. reflexivity.
Qed.

Lemma extract_image_empty (w : world) :
  pacs_shows w = true -> clipboard_stays_empty w = true ->
  exists polls,
    extract_image w
    = (mk_world (extract_empty_events ++ trace w) polls
         (skipn 3 (clipboard_grabs w)) (disk_writable w) (image_file w)
         (http_responses w) (control_texts w),
       Ok false).
Proof.
  intros Hp Hc. unfold extract_image. unfold io_bind at 1.
  unfold log_message at 1, emit at 1. unfold io_bind at 1.
  match goal with
  | |- context [wait_for_pacs 15 ?w1] =>
      destruct (wait_for_pacs_run 15 w1 Hp) as [polls [pacs_win E]];
      rewrite E
  end.
  exists polls. unfold clipboard_stays_empty in Hc.
  destruct w as [tr po grabs dw img http texts]. cbn [clipboard_grabs] in Hc.
  destruct grabs as [|c0 [|c1 [|c2 g]]]; cbn [firstn forallb] in Hc;
    repeat match goal with
           | c : clip |- _ => destruct c; try discriminate Hc
           end;
    reflexivity.
Qed.

Lemma report_loop_extract_fails thumbnail enter_report remaining
  report_num num_reports (w : world) :
  pacs_shows w = true -> clipboard_stays_empty w = true ->
  exists polls,
    report_loop thumbnail enter_report (S remaining) report_num num_reports w
    = (mk_world
         (LogMessage (msg_extract_failed report_num)
          :: extract_empty_events
          ++ round_start_events
               (match image_file w with Some _ => true | None => false end)
               report_num num_reports
          ++ trace w)
         polls (skipn 3 (clipboard_grabs w)) (disk_writable w) None
         (http_responses w) (control_texts w),
       Ok (false, report_num)).
Proof.
  intros Hp Hc. cbn [report_loop].
  unfold io_bind at 1, log_message at 1, emit at 1.
  unfold io_bind at 1, log_message at 1, emit at 1.
  unfold io_bind at 1, log_message at 1, emit at 1.
  unfold io_bind at 1, remove_image_file.
  destruct w as [tr po grabs dw img http texts].
  cbn [trace window_polls clipboard_grabs disk_writable image_file
         http_responses control_texts] in *.
  destruct img as [old|]; unfold io_bind at 1;
    match goal with
    | |- context [extract_image ?w1] =>
        destruct (extract_image_empty w1 Hp Hc) as [polls E]; rewrite E
    end;
    exists polls; reflexivity.
Qed.

(** C4. When the PACS window is there and three copies leave the clipboard
    without an image, [extract_image] reports it and returns [False], and the
    report loop, at whatever report and with whatever number of reports still
    to come, logs the failure and is left at once: three copies were sent, no
    request went to the endpoint, no further report was begun.  The run then
    logs that it finished with errors and ends without an exception. *)
Theorem extraction_failure_ends_batch
  (thumbnail : Z * Z -> Z * Z -> Z * Z) (enter_report : pystr -> io unit)
  (remaining : nat) (report_num num_reports : Z) (w : world)
  (pacs : pacs_shows w = true)
  (empty : clipboard_stays_empty w = true)
  (some_reports : 1 <= num_reports) :
  (exists w' added,
     report_loop thumbnail enter_report (S remaining) report_num num_reports w
     = (w', Ok (false, report_num))
     /\ trace w' = added ++ trace w
     /\ In (Print msg_no_image) added
     /\ In (LogMessage (msg_extract_failed report_num)) added
     /\ length (filter (event_is_keys (str "^c")) added) = 3%nat
     /\ existsb is_http_post added = false
     /\ reports_begun added = 1%nat)
  /\ (exists w' added,
        process_reports thumbnail enter_report num_reports w = (w', Ok tt)
        /\ trace w' = added ++ trace w
        /\ In (LogMessage (msg_finished_with_errors 0 num_reports)) added
        /\ reports_begun added = 1%nat).
Proof.
  split.
  - destruct (report_loop_extract_fails thumbnail enter_report remaining
                report_num num_reports w pacs empty) as [polls E].
    rewrite E. eexists. eexists. split; [reflexivity|].
    cbn [trace]. split.
    + rewrite app_comm_cons, app_assoc. reflexivity.
    + destruct (image_file w); cbn -[rule60 msg_extract_failed msg_no_image];
        repeat split; auto 20.
  - unfold process_reports.
    destruct (Z.to_nat num_reports) as [|remaining'] eqn:En; [lia|].
    unfold io_bind at 1.
    destruct (report_loop_extract_fails thumbnail enter_report remaining'
                0 num_reports w pacs empty) as [polls E].
    rewrite E. eexists. eexists. split; [reflexivity|].
    cbn [trace]. split.
    + rewrite !app_comm_cons, app_assoc. reflexivity.
    + destruct (image_file w); cbn -[rule60 msg_finished_with_errors];
        repeat split; auto 20.
Qed.

Lemma extraction_failure_ends_batch_witness :
  let w := world_empty_clipboard in
  (exists w' added,
     report_loop pillow_thumbnail_size type_findings 2 0 2 w
     = (w', Ok (false, 0))
     /\ trace w' = added ++ trace w
     /\ In (Print msg_no_image) added
     /\ In (LogMessage (msg_extract_failed 0)) added
     /\ length (filter (event_is_keys (str "^c")) added) = 3%nat
     /\ existsb is_http_post added = false
     /\ reports_begun added = 1%nat)
  /\ (exists w' added,
        process_reports pillow_thumbnail_size type_findings 2 w = (w', Ok tt)
        /\ trace w' = added ++ trace w
        /\ In (LogMessage (msg_finished_with_errors 0 2)) added
        /\ reports_begun added = 1%nat).
Proof.
  apply (extraction_failure_ends_batch pillow_thumbnail_size type_findings
           1%nat 0 2 world_empty_clipboard).
  - reflexivity.
  - reflexivity.
  - lia.
Defined.

(** Two reports are asked for and the clipboard stays empty: the run begins
    the first report only, never the second, and finishes with errors.  The
    failed extraction has ended the whole run. *)
Lemma extraction_failure_ends_run_of_two :
  let '(w', r) :=
    process_reports pillow_thumbnail_size type_findings 2
      world_empty_clipboard in
  r = Ok tt
  /\ reports_begun (trace w') = 1%nat
  /\ reports_begun (trace w') <> Z.to_nat 2
  /\ existsb (event_is_log (msg_processing 1 2)) (trace w') = false
  /\ existsb (event_is_log (msg_finished_with_errors 0 2)) (trace w') = true.
Proof. vm_compute. repeat split. discriminate. Qed.

(** For comparison, a run of two reports that goes through; the second
    extraction needs a second copy. *)
Example two_reports_complete :
  let '(w', r) :=
    process_reports pillow_thumbnail_size type_findings 2 world_two_reports in
  r = Ok tt
  /\ reports_begun (trace w') = 2%nat
  /\ existsb (event_is_log (msg_all_completed 1)) (trace w') = true
  /\ length (filter (event_is_keys (str "^c")) (trace w')) = 3%nat
  /\ length (filter (event_is_keys (str "{F4}")) (trace w')) = 1%nat
  /\ length (filter (event_is_keys
                       (str "{ENTER}" ++ escape_for_type_keys findings_normal))
               (trace w')) = 2%nat.
Proof. vm_compute. repeat split. Qed.

(** ** Examples *)

Example escape_example :
  escape_for_type_keys (str "a{b}+" ++ [CR; LF; CR] ++ str "(50%)")
  = str "a{{}b{}}{+}{ENTER}{ENTER}{(}50{%}{)}".
Proof. reflexivity. Qed.

Example date_picker_second_attempt :
  let now := mk_datetime 2024 2 1 0 0 0 0 in
  let dp := mk_date_picker 7 (mk_rectangle 100 40 220 61) in
  let w := mk_world [] [] [] true None []
             (fun c => if Nat.eqb c 7
                       then [str "2023/12/31"; str "2024/12/31"; str "2024/2/1"]
                       else []) in
  let '(w', r) := set_date_picker 0 dp now w in
  r = Ok tt
  /\ clicks (trace w') = 2%nat
  /\ In (MouseClick 130 50 false) (trace w')
  /\ existsb (event_is_print (msg_date_warning 0)) (trace w') = false.
Proof. vm_compute. intuition. Qed.

Example date_picker_gives_up :
  let now := mk_datetime 2024 2 1 0 0 0 0 in
  let dp := mk_date_picker 7 (mk_rectangle 100 40 220 61) in
  let w := mk_world [] [] [] true None [] (fun _ => [str "2023/12/31"]) in
  let '(w', r) := set_date_picker 0 dp now w in
  r = Ok tt
  /\ clicks (trace w') = 3%nat
  /\ existsb (event_is_print (msg_date_warning 0)) (trace w') = true.
Proof. vm_compute. intuition. Qed.

Example prompt_for_date_examples :
  let today := mk_datetime 2026 11 4 9 30 0 0 in
  let ask := prompt_for_date (fun _ => None) 4300 today in
  ask (str "2023/02/29") = Ok today
  /\ ask (str "2024/02/29") = Ok (mk_datetime 2024 2 29 0 0 0 0)
  /\ ask (str "13/01") = Ok today
  /\ ask (str "2024/03/05/07") = Ok today
  /\ ask (str "  12-25 ") = Ok (mk_datetime 2026 12 25 0 0 0 0)
  /\ ask (str "99999999999/1/1") = Ok today.
Proof. vm_compute. repeat split. Qed.

Example read_num_reports_examples :
  let read := read_num_reports (fun _ => None) 4300 in
  read (str " 12 ") = Ok 12
  /\ read (str "1_0") = Ok 10
  /\ read (str "-7") = Ok 1
  /\ read (str "3.5") = Ok 1
  /\ read (str "") = Ok 1
  /\ read (str "three") = Ok 1.
Proof. vm_compute. repeat split. Qed.

(** Whatever the search and the report entry do, the main block handles
    every exception itself. *)
Lemma run_workflow_returns thumbnail search_and_open enter_report
  (selected_date : datetime) (num_reports : Z) (w : world) :
  exists w',
    run_workflow thumbnail search_and_open enter_report selected_date
      num_reports w = (w', Ok tt).
Proof.
  unfold run_workflow, io_try.
  destruct (io_bind _ _ w) as [w1 [[]|e]]; eexists; reflexivity.
Qed.

(* ================================================================== *)
(** * Further properties *)
(* ================================================================== *)

(** ** More on [escape_for_type_keys] *)

Lemma escape_as_newline_form (text : pystr) :
  escape_for_type_keys text = concat (map escape_char (newline_form text)).
Proof.
  unfold escape_for_type_keys, PyStr.join_empty. cbv zeta.
  now rewrite normalize_newlines_form.
Qed.

Lemma reverse_escape_escape (text : pystr) :
  reverse_escape (escape_for_type_keys text) = Some (newline_form text).
Proof.
  unfold reverse_escape, escape_for_type_keys. cbv zeta.
  rewrite read_keys_escape, normalize_newlines_form. cbn [option_map].
  now rewrite token_char_of_char.
Qed.

Lemma newline_form_no_cr (s : pystr) : ~ In CR (newline_form s).
Proof.
  induction s as [|c|c d t IH1 IH2] using two_step_ind.
  - intros [].
  - cbn [newline_form]. destruct (N.eqb_spec c CR).
    + intros [E|[]]. discriminate.
    + intros [E|[]]. congruence.
  - cbn [newline_form] in *. destruct (N.eqb_spec c CR).
    + destruct (d =? LF)%N; intros [E|H]; try discriminate; auto.
    + intros [E|H]; [congruence|auto].
Qed.

Lemma escape_char_cases (c : char) :
  c <> CR ->
  (1 <= length (escape_char c) <= 7)%nat
  /\ ~ In CR (escape_char c) /\ ~ In LF (escape_char c).
Proof.
  intros Hcr.
  destruct (N.eq_dec c (chr "{")); [subst; cbn; intuition (lia || discriminate)|].
  destruct (N.eq_dec c (chr "}")); [subst; cbn; intuition (lia || discriminate)|].
  destruct (N.eq_dec c (chr "+")); [subst; cbn; intuition (lia || discriminate)|].
  destruct (N.eq_dec c (chr "^")); [subst; cbn; intuition (lia || discriminate)|].
  destruct (N.eq_dec c (chr "%")); [subst; cbn; intuition (lia || discriminate)|].
  destruct (N.eq_dec c (chr "(")); [subst; cbn; intuition (lia || discriminate)|].
  destruct (N.eq_dec c (chr ")")); [subst; cbn; intuition (lia || discriminate)|].
  destruct (N.eq_dec c LF); [subst; cbn; intuition (lia || discriminate)|].
  unfold escape_char. rewrite not_special_neq by assumption.
  destruct (N.eqb_spec c LF); [contradiction|].
  cbn. intuition (lia || congruence).
Qed.

(** X1. The key string never holds a raw carriage return or line feed: every
    newline of the text goes out as an [{ENTER}] token. *)
Theorem escape_no_raw_newline (text : pystr) :
  ~ In CR (escape_for_type_keys text) /\ ~ In LF (escape_for_type_keys text).
Proof.
  rewrite escape_as_newline_form.
  pose proof (newline_form_no_cr text) as H.
  induction (newline_form text) as [|c u IH]; [split; intros []|].
  cbn [map concat].
  assert (Hc : c <> CR) by (intros ->; apply H; now left).
  destruct (escape_char_cases c Hc) as [_ [H1 H2]].
  destruct IH as [I1 I2]; [intros Hin; apply H; now right|].
  split; intros Hin; apply in_app_or in Hin as [Hin|Hin]; auto.
Qed.

Lemma escape_chars_length (u : pystr) :
  ~ In CR u ->
  (length u <= length (concat (map escape_char u)) <= 7 * length u)%nat.
Proof.
  induction u as [|c u IH]; intros H; [cbn; lia|].
  cbn [map concat length]. rewrite length_app.
  assert (Hc : c <> CR) by (intros ->; apply H; now left).
  destruct (escape_char_cases c Hc) as [Hl _].
  assert (Hu : ~ In CR u) by (intros Hin; apply H; now right).
  specialize (IH Hu). lia.
Qed.

Lemma newline_form_length (text : pystr) :
  (length (newline_form text) <= length text)%nat.
Proof.
  induction text as [|c|c d t IH1 IH2] using two_step_ind; [cbn; lia| |].
  - cbn [newline_form]. destruct (c =? CR)%N; cbn; lia.
  - cbn [newline_form length] in *.
    destruct (c =? CR)%N; [destruct (d =? LF)%N|]; cbn [length]; lia.
Qed.

(** X2. The key string is at least as long as the text with its newlines
    normalized and at most seven times as long as the text. *)
Theorem escape_length_bounds (text : pystr) :
  (length (newline_form text) <= length (escape_for_type_keys text)
   <= 7 * length text)%nat.
Proof.
  rewrite escape_as_newline_form.
  pose proof (newline_form_length text).
  pose proof (escape_chars_length (newline_form text) (newline_form_no_cr text)).
  lia.
Qed.

Lemma newline_form_app (a b : pystr) :
  last a 0%N <> CR \/ hd 0%N b <> LF ->
  newline_form (a ++ b) = newline_form a ++ newline_form b.
Proof.
  induction a as [|c|c d t IH1 IH2] using two_step_ind; intros H.
  - reflexivity.
  - cbn [app newline_form last] in *.
    destruct (N.eqb_spec c CR) as [->|Hc]; [|reflexivity].
    destruct b as [|e b]; [reflexivity|]. cbn [hd] in H.
    destruct (N.eqb_spec e LF) as [->|He]; [|reflexivity].
    destruct H; contradiction.
  - assert (H2 : last (d :: t) 0%N <> CR \/ hd 0%N b <> LF) by exact H.
    specialize (IH2 H2).
    change ((c :: d :: t) ++ b) with (c :: d :: (t ++ b)).
    change ((d :: t) ++ b) with (d :: (t ++ b)) in IH2.
    cbn [newline_form] in *.
    destruct (c =? CR)%N.
    + destruct (d =? LF)%N eqn:Ed.
      * cbn [app]. f_equal. destruct t as [|e t]; [reflexivity|].
        apply IH1. exact H.
      * cbn [app]. f_equal. exact IH2.
    + cbn [app]. f_equal. exact IH2.
Qed.

(** X3. Escaping goes piece by piece: the key string of [a ++ b] is the key
    string of [a] followed by that of [b], unless [a] ends with a carriage
    return and [b] starts with a line feed (which together are one
    newline). *)
Theorem escape_app (a b : pystr)
  (boundary : last a 0%N <> CR \/ hd 0%N b <> LF) :
  escape_for_type_keys (a ++ b)
  = escape_for_type_keys a ++ escape_for_type_keys b.
Proof.
  rewrite !escape_as_newline_form, newline_form_app by assumption.
  now rewrite map_app, concat_app.
Qed.

Lemma escape_app_witness :
  escape_for_type_keys (str "a+" ++ (CR :: str "b"))
  = escape_for_type_keys (str "a+") ++ escape_for_type_keys (CR :: str "b").
Proof.
  apply (escape_app (str "a+") (CR :: str "b")).
  left. cbn. discriminate.
Defined.

(** X4. Two texts with the same key string are the same text up to the
    way their newlines are written; without carriage returns they are
    equal. *)
Theorem escape_injective (a b : pystr)
  (same : escape_for_type_keys a = escape_for_type_keys b) :
  newline_form a = newline_form b
  /\ (if existsb (N.eqb CR) a || existsb (N.eqb CR) b then True else a = b).
Proof.
  assert (E : newline_form a = newline_form b).
  { pose proof (reverse_escape_escape a) as Ha.
    rewrite same, reverse_escape_escape in Ha. now injection Ha. }
  split; [exact E|].
  destruct (existsb (N.eqb CR) a) eqn:Ea; [exact I|].
  destruct (existsb (N.eqb CR) b) eqn:Eb; [exact I|]. cbn [orb].
  now rewrite <- (newline_form_without_cr a Ea),
    <- (newline_form_without_cr b Eb).
Qed.

Lemma escape_injective_witness :
  newline_form (str "a" ++ [CR; LF]) = newline_form (str "a" ++ [LF])
  /\ (if existsb (N.eqb CR) (str "a" ++ [CR; LF])
         || existsb (N.eqb CR) (str "a" ++ [LF])
      then True else str "a" ++ [CR; LF] = str "a" ++ [LF]).
Proof.
  apply (escape_injective (str "a" ++ [CR; LF]) (str "a" ++ [LF])).
  reflexivity.
Defined.

(** ** More on [prompt_for_date] *)

Lemma datetime_new_valid (y m d : Z) (t : datetime) :
  datetime_new y m d = Ok t ->
  t = mk_datetime y m d 0 0 0 0 /\ valid_datetime t.
Proof.
  unfold datetime_new.
  destruct (negb (fits_c_int y && fits_c_int m && fits_c_int d));
    [discriminate|].
  destruct ((1 <=? y) && (y <=? 9999)) eqn:Ey; [|discriminate].
  destruct ((1 <=? m) && (m <=? 12)) eqn:Em; [|discriminate].
  destruct ((1 <=? d) && (d <=? days_in_month y m)) eqn:Ed; [|discriminate].
  cbn [negb]. intros E. injection E as <-. split; [reflexivity|].
  apply andb_true_iff in Ey as [Ey1 Ey2], Em as [Em1 Em2], Ed as [Ed1 Ed2].
  apply Z.leb_le in Ey1, Ey2, Em1, Em2, Ed1, Ed2.
  unfold valid_datetime. cbn [year month day hour minute second microsecond].
  lia.
Qed.

Lemma date_of_parts_valid decimal max_str_digits today parts t :
  date_of_parts decimal max_str_digits today parts = Ok t ->
  valid_datetime t
  /\ hour t = 0 /\ minute t = 0 /\ second t = 0 /\ microsecond t = 0.
Proof.
  assert (V : forall y m d, datetime_new y m d = Ok t ->
              valid_datetime t
              /\ hour t = 0 /\ minute t = 0 /\ second t = 0
              /\ microsecond t = 0).
  { intros y m d E. apply datetime_new_valid in E as [-> E].
    split; [exact E|repeat split]. }
  destruct parts as [|p0 [|p1 [|p2 [|p3 rest]]]]; cbn [date_of_parts];
    try discriminate.
  - destruct (py_int _ _ p0); cbn [bind]; [|discriminate].
    destruct (py_int _ _ p1); cbn [bind]; [|discriminate]. apply V.
  - destruct (py_int _ _ p0); cbn [bind]; [|discriminate].
    destruct (py_int _ _ p1); cbn [bind]; [|discriminate].
    destruct (py_int _ _ p2); cbn [bind]; [|discriminate]. apply V.
Qed.

(** X5. Whatever is typed, [prompt_for_date] returns a date that exists:
    today as given, or midnight of a valid calendar day in the years 1 to
    9999. *)
Theorem prompt_for_date_valid
  (decimal : char -> option N) (max_str_digits : nat) (today : datetime)
  (line : pystr) (today_ok : valid_datetime today) :
  exists t,
    prompt_for_date decimal max_str_digits today line = Ok t
    /\ valid_datetime t
    /\ (t = today
        \/ (hour t = 0 /\ minute t = 0 /\ second t = 0 /\ microsecond t = 0)).
Proof.
  unfold prompt_for_date.
  destruct (PyStr.strip line) as [|c u]; [exists today; auto|].
  unfold parse_date, try_except.
  destruct (date_of_parts _ _ _ _) as [t|e] eqn:E; [|exists today; auto].
  apply date_of_parts_valid in E as [V M]. exists t. auto.
Qed.

Lemma prompt_for_date_valid_witness :
  exists t,
    prompt_for_date (fun _ => None) 4300 (mk_datetime 2026 11 4 9 30 0 0)
      (str "2/30") = Ok t
    /\ valid_datetime t
    /\ (t = mk_datetime 2026 11 4 9 30 0 0
        \/ (hour t = 0 /\ minute t = 0 /\ second t = 0 /\ microsecond t = 0)).
Proof.
  apply (prompt_for_date_valid (fun _ => None) 4300%nat
           (mk_datetime 2026 11 4 9 30 0 0) (str "2/30")).
  unfold valid_datetime. cbn. lia.
Defined.

(** *** Reading back a date written as [Y/M/D] *)











(** ** More on the date pickers *)

Lemma contains_app (sub pre post : pystr) :
  PyStr.contains sub (pre ++ sub ++ post) = true.
Proof.
  induction pre as [|c pre IH].
  - cbn [app]. destruct (sub ++ post) eqn:E; cbn [PyStr.contains];
      rewrite <- E, startswith_app; reflexivity.
  - cbn [app PyStr.contains]. rewrite IH. apply orb_true_r.
Qed.

(** X7. The verification of a date picker looks for the expected text
    anywhere in what the control shows: a reading that merely contains
    ["Y/M/D"] (for instance a later day of the month whose number starts with
    the expected one) counts as set, so that after one attempt the routine
    stops without a warning. *)
Theorem date_picker_accepts_containing_text
  (i : nat) (dp : date_picker) (now : datetime) (w : world)
  (pre post : pystr)
  (shown : nth 1 (control_texts w (control dp)) []
           = pre ++ expected_date now ++ post) :
  date_matches now (pre ++ expected_date now ++ post) = true
  /\ exists w' added,
       set_date_picker i dp now w = (w', Ok tt)
       /\ trace w' = added ++ trace w
       /\ clicks added = 1%nat
       /\ existsb (event_is_print (msg_date_warning i)) added = false.
Proof.
  assert (M : date_matches now (pre ++ expected_date now ++ post) = true).
  { unfold date_matches. now rewrite contains_app. }
  split; [exact M|].
  destruct (set_date_picker_run i dp now w) as [w' [added [E [T [C W]]]]].
  exists w', added. split; [exact E|]. split; [exact T|].
  assert (H : hd [] (tl (control_texts w (control dp)))
              = pre ++ expected_date now ++ post).
  { rewrite <- shown. now destruct (control_texts w (control dp)) as [|a [|b l]]. }
  cbn [attempts_needed] in C, W. rewrite H, M in C, W. now split.
Qed.

Lemma date_picker_accepts_containing_text_witness :
  let now := mk_datetime 2024 1 1 0 0 0 0 in
  let dp := mk_date_picker 7 (mk_rectangle 100 40 220 61) in
  let w := mk_world [] [] [] true None []
             (fun _ => [str "2023/12/31"; str "2024/1/15"]) in
  date_matches now ([] ++ expected_date now ++ str "5") = true
  /\ exists w' added,
       set_date_picker 0 dp now w = (w', Ok tt)
       /\ trace w' = added ++ trace w
       /\ clicks added = 1%nat
       /\ existsb (event_is_print (msg_date_warning 0)) added = false.
Proof.
  apply (date_picker_accepts_containing_text 0
           (mk_date_picker 7 (mk_rectangle 100 40 220 61))
           (mk_datetime 2024 1 1 0 0 0 0)
           (mk_world [] [] [] true None []
              (fun _ => [str "2023/12/31"; str "2024/1/15"]))
           [] (str "5")).
  reflexivity.
Defined.

(** ** More on [extract_image] *)

Lemma wait_for_pacs_absent n : forall w,
  existsb (existsb is_pacs_window) (firstn n (window_polls w)) = false ->
  wait_for_pacs n w = (with_polls (skipn n (window_polls w)) w, Ok None).
Proof.
  induction n as [|n IH]; intros w H.
  - destruct w; reflexivity.
  - cbn [wait_for_pacs]. unfold io_bind, desktop_windows.
    destruct (window_polls w) as [|ws polls] eqn:Ew; cbn [hd tl find].
    + change (mk_world (trace w) [] (clipboard_grabs w) (disk_writable w)
                (image_file w) (http_responses w) (control_texts w))
        with (with_polls [] w).
      rewrite IH by (cbn; now rewrite firstn_nil).
      cbn [with_polls window_polls trace clipboard_grabs disk_writable
             image_file http_responses control_texts].
      now rewrite skipn_nil.
    + cbn [firstn existsb] in H. apply orb_false_iff in H as [H1 H2].
      destruct (find is_pacs_window ws) as [pw|] eqn:Ef.
      * apply find_some in Ef as [Hin Hp].
        assert (existsb is_pacs_window ws = true)
          by (apply existsb_exists; now exists pw).
        congruence.
      * change (mk_world (trace w) polls (clipboard_grabs w) (disk_writable w)
                  (image_file w) (http_responses w) (control_texts w))
          with (with_polls polls w).
        now rewrite IH by exact H2.
Qed.

(** Runs the action of a goal [exists w', action w = (w', r) /\ _] and
    gives the world it ends in. *)
Ltac run_to_world :=
  match goal with
  | |- exists w', ?lhs = _ /\ _ =>
      let v := eval vm_compute in lhs in
      exists (fst v); split; [vm_compute; reflexivity|]
  end.

Lemma extract_image_outcome (w : world) :
  exists w',
    extract_image w = (w', Ok (is_some (extractable w)))
    /\ image_file w'
       = match extractable w with
         | Some img => Some img
         | None => image_file w
         end
    /\ http_responses w' = http_responses w
    /\ control_texts w' = control_texts w
    /\ (sent (str "^c") (trace w') <= sent (str "^c") (trace w) + 3)%nat
    /\ posts (trace w') = posts (trace w).
Proof.
  unfold extract_image, extractable. unfold io_bind at 1.
  unfold log_message at 1, emit at 1. unfold io_bind at 1.
  destruct (pacs_shows w) eqn:Hp.
  - match goal with
    | |- context [wait_for_pacs 15 ?w1] =>
        destruct (wait_for_pacs_run 15 w1 Hp) as [polls [pacs_win E]];
        rewrite E
    end.
    destruct w as [tr po grabs dw img http texts].
    cbn [clipboard_grabs disk_writable image_file http_responses
           control_texts trace andb].
    destruct grabs as [|[i0| |] [|[i1| |] [|[i2| |] g]]]; destruct dw;
      run_to_world; unfold sent, posts; cbn; repeat split; lia.
  - match goal with
    | |- context [wait_for_pacs 15 ?w1] =>
        rewrite (wait_for_pacs_absent 15 w1 Hp)
    end.
    destruct w as [tr po grabs dw img http texts].
    run_to_world; unfold sent, posts; cbn; repeat split; lia.
Qed.


(** X9. When no PACS window shows, [extract_image] gives up after exactly
    15 polls: it logs the error and returns [False] without sending a key,
    clearing or reading the clipboard, or touching the image file. *)
Theorem extract_image_without_pacs (w : world)
  (absent : pacs_shows w = false) :
  extract_image w
  = (mk_world
       (LogMessage (str "Error: PACS viewer not found.")
        :: LogMessage (LF :: str "=== STEP 2: Extract Image ===") :: trace w)
       (skipn 15 (window_polls w)) (clipboard_grabs w) (disk_writable w)
       (image_file w) (http_responses w) (control_texts w),
     Ok false).
Proof.
  unfold extract_image. unfold io_bind at 1.
  unfold log_message at 1, emit at 1. unfold io_bind at 1.
  match goal with
  | |- context [wait_for_pacs 15 ?w1] =>
      rewrite (wait_for_pacs_absent 15 w1 absent)
  end.
  reflexivity.
Qed.

Lemma extract_image_without_pacs_witness :
  let ris := mk_window true (str "RIS") in
  let w := mk_world [] (repeat [ris] 20) [ClipImage (mk_image 10 10)] true
             None [] (fun _ => []) in
  extract_image w
  = (mk_world
       [LogMessage (str "Error: PACS viewer not found.");
        LogMessage (LF :: str "=== STEP 2: Extract Image ===")]
       (repeat [ris] 5) [ClipImage (mk_image 10 10)] true None []
       (fun _ => []),
     Ok false).
Proof.
  exact (extract_image_without_pacs
           (mk_world [] (repeat [mk_window true (str "RIS")] 20)
              [ClipImage (mk_image 10 10)] true None [] (fun _ => []))
           eq_refl).
Defined.

(** X10. No stale image: after the deletion and the extraction that open a
    round of the report loop, the image file is the image copied in this
    round, and there is none when the extraction failed, whatever file was
    there before. *)
Theorem round_leaves_no_stale_image (w : world) :
  exists w',
    io_bind remove_image_file (fun _ => extract_image) w
    = (w', Ok (is_some (extractable w)))
    /\ image_file w' = extractable w.
Proof.
  unfold io_bind, remove_image_file.
  destruct (image_file w) as [old|] eqn:Ef.
  - match goal with
    | |- context [extract_image ?w1] =>
        destruct (extract_image_outcome w1) as [w' [E [F _]]];
        change (extractable w1) with (extractable w) in E, F
    end.
    exists w'. split; [exact E|]. rewrite F. cbn [image_file].
    now destruct (extractable w).
  - destruct (extract_image_outcome w) as [w' [E [F _]]].
    exists w'. split; [exact E|]. rewrite F, Ef.
    now destruct (extractable w).
Qed.

(** ** More on [analyze_image] *)

Lemma lstrip_split (s : pystr) :
  exists ws, s = ws ++ PyStr.lstrip s.
Proof.
  induction s as [|c s [ws IH]]; [now exists []|].
  cbn [PyStr.lstrip]. destruct (PyStr.isspace c); [|now exists []].
  exists (c :: ws). cbn [app]. now f_equal.
Qed.

Lemma lstrip_head (s : pystr) :
  match PyStr.lstrip s with
  | [] => True
  | c :: _ => PyStr.isspace c = false
  end.
Proof.
  induction s as [|c s IH]; [exact I|].
  cbn [PyStr.lstrip]. destruct (PyStr.isspace c) eqn:E; assumption.
Qed.

Lemma lstrip_fixed (s : pystr) :
  match s with [] => True | c :: _ => PyStr.isspace c = false end ->
  PyStr.lstrip s = s.
Proof. destruct s as [|c s]; [reflexivity|]. cbn. now intros ->. Qed.

Lemma strip_split (s : pystr) :
  exists ws1 ws2, s = ws1 ++ PyStr.strip s ++ ws2.
Proof.
  destruct (lstrip_split s) as [ws1 E1].
  destruct (lstrip_split (rev (PyStr.lstrip s))) as [ws2 E2].
  exists ws1, (rev ws2). unfold PyStr.strip, PyStr.rstrip.
  rewrite <- rev_app_distr, <- E2, rev_involutive. exact E1.
Qed.

Lemma strip_strip (s : pystr) : PyStr.strip (PyStr.strip s) = PyStr.strip s.
Proof.
  unfold PyStr.strip at 1. unfold PyStr.rstrip at 1.
  assert (H1 : PyStr.lstrip (PyStr.strip s) = PyStr.strip s).
  { apply lstrip_fixed.
    pose proof (lstrip_head s) as Hh.
    destruct (lstrip_split (rev (PyStr.lstrip s))) as [ws E].
    unfold PyStr.strip, PyStr.rstrip.
    apply (f_equal (@rev char)) in E.
    rewrite rev_involutive, rev_app_distr in E.
    destruct (rev (PyStr.lstrip (rev (PyStr.lstrip s)))) as [|c u];
      [exact I|].
    rewrite E in Hh. exact Hh. }
  rewrite H1.
  assert (H2 : PyStr.lstrip (rev (PyStr.strip s)) = rev (PyStr.strip s)).
  { apply lstrip_fixed. unfold PyStr.strip, PyStr.rstrip.
    rewrite rev_involutive. apply lstrip_head. }
  now rewrite H2, rev_involutive.
Qed.

Lemma startswith_longer (sub a b : pystr) :
  PyStr.startswith sub a = true -> PyStr.startswith sub (a ++ b) = true.
Proof.
  intros H. apply startswith_inv in H as [r ->].
  rewrite <- app_assoc. apply startswith_app.
Qed.

Lemma contains_inside (sub a s b : pystr) :
  PyStr.contains sub s = true -> PyStr.contains sub (a ++ s ++ b) = true.
Proof.
  intros H. induction a as [|c a IH].
  - cbn [app]. induction s as [|c s IH].
    + cbn [PyStr.contains] in H. rewrite orb_false_r in H.
      apply startswith_inv in H as [r E]. destruct sub; [|discriminate].
      cbn [app]. now destruct b.
    + cbn [app PyStr.contains] in *. apply orb_true_iff in H as [H|H].
      * change (c :: s ++ b) with ((c :: s) ++ b).
        now rewrite startswith_longer.
      * rewrite IH by assumption. apply orb_true_r.
  - cbn [app PyStr.contains]. rewrite IH. apply orb_true_r.
Qed.

Lemma strip_keeps_free (sub s : pystr) :
  PyStr.contains sub s = false -> PyStr.contains sub (PyStr.strip s) = false.
Proof.
  intros H. destruct (PyStr.contains sub (PyStr.strip s)) eqn:E; [|reflexivity].
  destruct (strip_split s) as [ws1 [ws2 Es]].
  rewrite Es, contains_inside in H by assumption. discriminate.
Qed.

Lemma analyze_image_outcome thumbnail (w : world) :
  exists w' r,
    analyze_image thumbnail w = (w', Ok r)
    /\ r = match image_file w with
           | Some _ =>
               analysis_result (hd ConnectionFailed (http_responses w))
           | None => None
           end
    /\ image_file w' = image_file w
    /\ (posts (trace w') <= posts (trace w) + 1)%nat
    /\ match r with
       | Some f =>
           hd_error (trace w') = Some (WriteReport f)
           /\ report_writes (trace w') = S (report_writes (trace w))
           /\ posts (trace w') = S (posts (trace w))
           /\ PyStr.strip f = f
           /\ PyStr.contains [LF; LF] f = false
       | None => report_writes (trace w') = report_writes (trace w)
       end.
Proof.
  unfold analyze_image. unfold io_bind at 1, log_message, emit.
  unfold io_bind at 1, open_image_file.
  destruct w as [tr po grabs dw img http texts].
  cbn [trace window_polls clipboard_grabs disk_writable image_file
         http_responses control_texts].
  assert (Done : forall (w' : world) (x : world * result (option pystr)),
            x = (w', Ok None) ->
            image_file w' = img ->
            (posts (trace w') <= posts tr + 1)%nat ->
            report_writes (trace w') = report_writes tr ->
            forall expected, expected = None ->
            exists w'' r,
              x = (w'', Ok r) /\ r = expected /\ image_file w'' = img
              /\ (posts (trace w'') <= posts tr + 1)%nat
              /\ match r with
                 | Some f =>
                     hd_error (trace w'') = Some (WriteReport f)
                     /\ report_writes (trace w'') = S (report_writes tr)
                     /\ posts (trace w'') = S (posts tr)
                     /\ PyStr.strip f = f
                     /\ PyStr.contains [LF; LF] f = false
                 | None => report_writes (trace w'') = report_writes tr
                 end).
  { intros w' x -> Hi Hp Hr expected ->. exists w', None. now repeat split. }
  destruct img as [img|].
  2: { eapply Done; [reflexivity|reflexivity| | |reflexivity];
         unfold posts, report_writes; cbn; lia. }
  unfold io_try, io_bind at 1, post_and_decode.
  cbn [trace window_polls clipboard_grabs disk_writable image_file
         http_responses control_texts].
  destruct http as [|[| | |doc] rest]; cbn [hd tl analysis_result].
  1-4: eapply Done; [reflexivity|reflexivity| | |reflexivity];
         unfold posts, report_writes; cbn; lia.
  unfold io_bind at 1, lift.
  destruct (extract_content doc) as [content|e].
  2: { eapply Done; [reflexivity|reflexivity| | |reflexivity];
         unfold posts, report_writes; cbn; lia. }
  unfold io_bind at 1, write_raw_output.
  destruct content as [|b|n|nz rp|s|items|d];
    try (eapply Done; [reflexivity|reflexivity| | |reflexivity];
         unfold posts, report_writes; cbn; lia).
  unfold io_bind, emit, lift, ret.
  cbn [trace window_polls clipboard_grabs disk_writable image_file
         http_responses control_texts].
  rewrite clean_content_paragraph.
  eexists; eexists. split; [reflexivity|].
  unfold posts, report_writes. cbn [trace filter is_http_post length hd_error
                                     image_file].
  rewrite strip_strip.
  repeat split; try lia.
  - apply strip_strip.
  - apply strip_keeps_free, first_paragraph_no_blank.
Qed.


(** X12. A response that is neither a list nor an object is not turned
    down: with the image file there, [analyze_image] goes on with its [str()]
    as if that had been the generated text.  A body [null] so gives the
    findings ["None"]. *)
Theorem analyze_image_stringifies_scalars
  (thumbnail : Z * Z -> Z * Z -> Z * Z) (w : world) (doc : json)
  (rest : list http_result) (img : image)
  (scalar : is_scalar doc = true)
  (file : image_file w = Some img)
  (next : http_responses w = Body doc :: rest) :
  analyze_image thumbnail w
  = analyze_image thumbnail
      (with_responses (Body (JStr (py_str_json doc)) :: rest) w)
  /\ snd (analyze_image thumbnail (world_with_response img (Body JNull)))
     = Ok (Some (str "None")).
Proof.
  split; [|reflexivity].
  destruct w as [tr po grabs dw f http texts]. cbn in next, file. subst.
  destruct doc; try discriminate; reflexivity.
Qed.

Lemma analyze_image_stringifies_scalars_witness :
  let w := world_with_response (mk_image 800 600) (Body (JInt 42)) in
  analyze_image pillow_thumbnail_size w
  = analyze_image pillow_thumbnail_size
      (with_responses [Body (JStr (py_str_json (JInt 42)))] w)
  /\ snd (analyze_image pillow_thumbnail_size
            (world_with_response (mk_image 800 600) (Body JNull)))
     = Ok (Some (str "None")).
Proof.
  exact (analyze_image_stringifies_scalars pillow_thumbnail_size
           (world_with_response (mk_image 800 600) (Body (JInt 42)))
           (JInt 42) [] (mk_image 800 600) eq_refl eq_refl eq_refl).
Defined.

(** ** Running actions *)

Lemma io_bind_ok {A B : Type} (m : io A) (k : A -> io B) (w w1 : world)
  (a : A) :
  m w = (w1, Ok a) -> io_bind m k w = k a w1.
Proof. intros E. unfold io_bind. now rewrite E. Qed.

Lemma io_bind_emit {B : Type} (e : event) (k : unit -> io B) (w : world) :
  io_bind (emit e) k w = k tt (add_events [e] w).
Proof. reflexivity. Qed.

Lemma io_bind_ret {A B : Type} (a : A) (k : A -> io B) (w : world) :
  io_bind (ret a) k w = k a w.
Proof. reflexivity. Qed.

Lemma io_bind_assoc {A B C : Type} (m : io A) (k1 : A -> io B)
  (k2 : B -> io C) (w : world) :
  io_bind (io_bind m k1) k2 w = io_bind m (fun a => io_bind (k1 a) k2) w.
Proof. unfold io_bind. destruct (m w) as [w1 [a|e]]; reflexivity. Qed.

Lemma emit_run (e : event) (w : world) :
  emit e w = (add_events [e] w, Ok tt).
Proof. reflexivity. Qed.

Lemma ret_run {A : Type} (a : A) (w : world) : ret a w = (w, Ok a).
Proof. reflexivity. Qed.

Lemma add_events_app (a b : list event) (w : world) :
  add_events a (add_events b w) = add_events (a ++ b) w.
Proof.
  unfold add_events.
  cbn [trace window_polls clipboard_grabs disk_writable image_file
         http_responses control_texts].
  now rewrite app_assoc.
Qed.

Lemma remove_image_file_ok (w : world) :
  exists w', remove_image_file w = (w', Ok tt).
Proof.
  unfold remove_image_file. destruct (image_file w); eexists; reflexivity.
Qed.

(** Runs a sequence of [emit]s and collects the events. *)
Ltac run_emits :=
  repeat first [ rewrite io_bind_assoc | rewrite io_bind_emit
               | rewrite io_bind_ret ];
  rewrite ?emit_run, ?ret_run, ?add_events_app; cbn [app].

(** The events in front of the variable a trace ends with. *)
Ltac new_events l :=
  lazymatch l with
  | ?e :: ?l' => let p := new_events l' in constr:(e :: p)
  | _ => constr:(@nil event)
  end.

(** ** More on the report loop *)

(** X13. When the image was copied but the analysis gives no usable
    findings ([None] or an empty text), the round logs the failure and the
    report loop is left at once with [all_succeeded] false, at whatever report
    and with whatever number of reports still to come.  [enter_report] is not
    called: the outcome is the same whatever it would do.  The image stays
    on disk. *)
Theorem analysis_failure_ends_batch
  (thumbnail : Z * Z -> Z * Z -> Z * Z) (remaining : nat)
  (report_num num_reports : Z) (w : world) (img : image)
  (copied : extractable w = Some img)
  (unusable :
     usable (analysis_result (hd ConnectionFailed (http_responses w)))
     = false) :
  exists w',
    (forall enter_report,
       report_loop thumbnail enter_report (S remaining) report_num num_reports w
       = (w', Ok (false, report_num)))
    /\ hd_error (trace w') = Some (LogMessage (msg_analyze_failed report_num))
    /\ image_file w' = Some img.
Proof.
  destruct w as [tr po grabs dw file http texts].
  cbn [http_responses] in unusable.
  pose (w1 := mk_world
                (round_start_events (is_some file) report_num num_reports ++ tr)
                po grabs dw None http texts).
  destruct (extract_image_outcome w1) as [w2 [E2 [F2 [H2 _]]]].
  change (extractable w1)
    with (extractable (mk_world tr po grabs dw file http texts)) in E2, F2.
  rewrite copied in E2, F2. cbn [is_some] in E2.
  destruct (analyze_image_outcome thumbnail w2) as [w3 [r [E3 [R3 [F3 _]]]]].
  rewrite F2, H2 in R3. cbn [http_responses w1] in R3.
  rewrite <- R3 in unusable.
  exists (add_events [LogMessage (msg_analyze_failed report_num)] w3).
  split; [|split].
  - intros enter_report. cbn [report_loop].
    unfold io_bind at 1, log_message at 1, emit at 1.
    unfold io_bind at 1, log_message at 1, emit at 1.
    unfold io_bind at 1, log_message at 1, emit at 1.
    unfold io_bind at 1, remove_image_file.
    cbn [trace window_polls clipboard_grabs disk_writable image_file
           http_responses control_texts].
    destruct file as [old|]; unfold io_bind at 1;
      match goal with
      | |- context [extract_image ?x] => change x with w1
      end;
      rewrite E2; cbv beta iota; unfold io_bind at 1; rewrite E3;
      destruct r as [[|c f]|]; try discriminate unusable; reflexivity.
  - reflexivity.
  - cbn [add_events image_file]. now rewrite F3, F2.
Qed.

Lemma analysis_failure_ends_batch_witness :
  let w := mk_world [] [[mk_window true (pacs_prefix ++ str " CXR")]]
             [ClipImage (mk_image 800 600)] true None [BadStatus]
             (fun _ => []) in
  exists w',
    (forall enter_report,
       report_loop pillow_thumbnail_size enter_report 2 0 2 w
       = (w', Ok (false, 0)))
    /\ hd_error (trace w') = Some (LogMessage (msg_analyze_failed 0))
    /\ image_file w' = Some (mk_image 800 600).
Proof.
  exact (analysis_failure_ends_batch pillow_thumbnail_size 1%nat 0 2
           (mk_world [] [[mk_window true (pacs_prefix ++ str " CXR")]]
              [ClipImage (mk_image 800 600)] true None [BadStatus]
              (fun _ => []))
           (mk_image 800 600) eq_refl eq_refl).
Defined.

Lemma report_loop_counts thumbnail (enter_report : pystr -> io unit)
  (num_reports : Z) :
  (forall f w, exists w', enter_report f w = (w', Ok tt)) ->
  forall (remaining : nat) (report_num : Z) (w : world),
  exists w' ok k,
    report_loop thumbnail enter_report remaining report_num num_reports w
    = (w', Ok (ok, k))
    /\ (if (ok : bool) then k = report_num + Z.of_nat remaining - 1
        else report_num <= k < report_num + Z.of_nat remaining).
Proof.
  intros enter_ok remaining.
  induction remaining as [|remaining IH]; intros report_num w.
  - exists w, true, (report_num - 1). split; [reflexivity|]. cbn. lia.
  - cbn [report_loop].
    do 3 (erewrite io_bind_ok by reflexivity).
    match goal with
    | |- context [io_bind remove_image_file _ ?x] =>
        destruct (remove_image_file_ok x) as [w1 E1]
    end.
    erewrite io_bind_ok by exact E1.
    destruct (extract_image_outcome w1) as [w2 [E2 _]].
    erewrite io_bind_ok by exact E2.
    destruct (is_some (extractable w1)).
    + destruct (analyze_image_outcome thumbnail w2) as [w3 [r [E3 _]]].
      erewrite io_bind_ok by exact E3.
      destruct r as [[|c f]|].
      * eexists; exists false, report_num. split; [reflexivity|]. lia.
      * destruct (enter_ok (c :: f) w3) as [w4 E4].
        erewrite io_bind_ok by exact E4.
        erewrite io_bind_ok by reflexivity.
        match goal with
        | |- context [io_bind ?m _ ?x] =>
            assert (Ek : exists w5, m x = (w5, Ok tt))
              by (destruct (report_num <? num_reports - 1);
                  eexists; reflexivity);
            destruct Ek as [w5 E5]
        end.
        erewrite io_bind_ok by exact E5.
        destruct (IH (report_num + 1) w5) as [w' [ok [k [E Hk]]]].
        rewrite E. exists w', ok, k. split; [reflexivity|].
        destruct ok; lia.
      * eexists; exists false, report_num. split; [reflexivity|]. lia.
    + eexists; exists false, report_num. split; [reflexivity|]. lia.
Qed.

(** X14. With an [enter_report] that does not raise, the body of the main
    block after the search always comes to its end, and the last three lines
    it logs are a rule, the summary and a rule.  The summary either says that
    all reports were completed, and then names the number that was asked
    for, or says that the workflow finished with errors after [k] reports,
    where [k] is less than the number that was asked for. *)
Theorem workflow_summary_counts
  (thumbnail : Z * Z -> Z * Z -> Z * Z) (enter_report : pystr -> io unit)
  (num_reports : Z) (w : world)
  (enter_ok : forall f w, exists w', enter_report f w = (w', Ok tt))
  (some_reports : 1 <= num_reports) :
  exists w' line earlier,
    process_reports thumbnail enter_report num_reports w = (w', Ok tt)
    /\ trace w'
       = LogMessage rule60 :: LogMessage line :: LogMessage (LF :: rule60)
         :: earlier
    /\ (line = str "[OK] ALL " ++ py_str_int num_reports
               ++ str " REPORTS COMPLETED SUCCESSFULLY!"
        \/ exists k, 0 <= k < num_reports
                     /\ line = msg_finished_with_errors k num_reports).
Proof.
  unfold process_reports.
  destruct (report_loop_counts thumbnail enter_report num_reports enter_ok
              (Z.to_nat num_reports) 0 w) as [w1 [ok [k [E Hk]]]].
  erewrite io_bind_ok by exact E.
  rewrite Z2Nat.id in Hk by lia.
  destruct ok.
  - eexists; eexists; eexists. split; [reflexivity|].
    split; [reflexivity|]. left. unfold msg_all_completed.
    replace (k + 1) with num_reports by lia. reflexivity.
  - eexists; eexists; eexists. split; [reflexivity|].
    split; [reflexivity|]. right. exists k. split; [lia|reflexivity].
Qed.

Lemma workflow_summary_counts_witness :
  exists w' line earlier,
    process_reports pillow_thumbnail_size type_findings 2 world_two_reports
    = (w', Ok tt)
    /\ trace w'
       = LogMessage rule60 :: LogMessage line :: LogMessage (LF :: rule60)
         :: earlier
    /\ (line = str "[OK] ALL " ++ py_str_int 2
               ++ str " REPORTS COMPLETED SUCCESSFULLY!"
        \/ exists k, 0 <= k < 2 /\ line = msg_finished_with_errors k 2).
Proof.
  apply (workflow_summary_counts pillow_thumbnail_size type_findings 2
           world_two_reports).
  - intros f w. eexists. reflexivity.
  - lia.
Defined.

(** ** [enter_report] *)

Lemma enter_report_run (ed : editor) (findings : pystr) (w : world) :
  exists added,
    enter_report ed findings w = (add_events added w, Ok tt)
    /\ keys_sent added
       = (if editor_ready ed && negb (PyStr.eqb findings [])
          then [str "^{END}"; str "{ENTER}" ++ escape_for_type_keys findings]
          else [])
    /\ filter is_log added
       = [LogMessage (LF :: str "=== STEP 4: Enter Report ===")]
    /\ (clicks added <= 1)%nat.
Proof.
  unfold enter_report, type_findings, click_input, set_focus, send_keys,
    mouse_click, print, log_message.
  destruct ed as [[children|] [box|]], findings as [|c f];
    cbn [main_window exam_box];
    try destruct (existsb is_visible_date_picker children);
    run_emits; eexists; (split; [reflexivity|]);
    (split; [reflexivity|]); (split; [reflexivity|]);
    unfold clicks; cbn [filter is_click length]; lia.
Qed.


Lemma typed_keys_read (f : pystr) :
  read_keys (str "{ENTER}" ++ escape_for_type_keys f)
  = Some (map token_of_char (LF :: newline_form f)).
Proof.
  rewrite escape_as_newline_form.
  change (str "{ENTER}" ++ concat (map escape_char (newline_form f)))
    with (PyStr.join_empty (map escape_char (LF :: newline_form f))).
  apply read_keys_escape.
Qed.

(** X16. The key string [enter_report] types after moving the caret to the
    end reads back, token by token, as a line break followed by the findings
    with their newlines normalized: the findings start on a line of their
    own.  It holds one [{ENTER}] more than the findings have newlines. *)
Theorem typed_findings_start_new_line (findings : pystr) :
  reverse_escape (str "{ENTER}" ++ escape_for_type_keys findings)
  = Some (LF :: newline_form findings)
  /\ count_enter (str "{ENTER}" ++ escape_for_type_keys findings)
     = S (count_newlines findings).
Proof.
  unfold reverse_escape, count_enter. rewrite typed_keys_read.
  cbn [option_map]. rewrite token_char_of_char. split; [reflexivity|].
  cbn [map filter]. change (token_of_char LF) with Enter.
  cbn [is_enter length]. now rewrite count_enter_newline_form.
Qed.

Lemma keys_sent_app (a b : list event) :
  keys_sent (a ++ b) = keys_sent b ++ keys_sent a.
Proof.
  induction a as [|e a IH]; [now rewrite app_nil_r|].
  cbn [app keys_sent]. destruct e; try exact IH.
  now rewrite IH, app_assoc.
Qed.

(** X17. A round of the report loop in which the image is copied, the
    endpoint answers with findings that are not empty and the editor is up,
    succeeds.  What is typed into the EXAM box is the very text that was
    written to the report file just before: after that write the keys sent
    are [^{END}], then [{ENTER}] with the escaped findings, and then [{F4}] if
    and only if this is not the last report asked for; the last line logged
    says that the report is completed. *)
Theorem completed_round_types_report_text
  (thumbnail : Z * Z -> Z * Z -> Z * Z) (ed : editor)
  (report_num num_reports : Z) (w : world) (img : image) (f : pystr)
  (copied : extractable w = Some img)
  (answered :
     analysis_result (hd ConnectionFailed (http_responses w)) = Some f)
  (nonempty : f <> [])
  (ready : editor_ready ed = true) :
  exists w' typed written,
    report_loop thumbnail (enter_report ed) 1 report_num num_reports w
    = (w', Ok (true, report_num))
    /\ trace w' = typed ++ WriteReport f :: written
    /\ keys_sent typed
       = [str "^{END}"; str "{ENTER}" ++ escape_for_type_keys f]
         ++ (if report_num <? num_reports - 1 then [str "{F4}"] else [])
    /\ hd_error (filter is_log typed)
       = Some (LogMessage (msg_completed report_num)).
Proof.
  destruct w as [tr po grabs dw file http texts].
  cbn [http_responses] in answered.
  pose (w1 := mk_world
                (round_start_events (is_some file) report_num num_reports ++ tr)
                po grabs dw None http texts).
  destruct (extract_image_outcome w1) as [w2 [E2 [F2 [H2 _]]]].
  change (extractable w1)
    with (extractable (mk_world tr po grabs dw file http texts)) in E2, F2.
  rewrite copied in E2, F2. cbn [is_some] in E2.
  destruct (analyze_image_outcome thumbnail w2)
    as [w3 [r [E3 [R3 [F3 [_ W3]]]]]].
  rewrite F2, H2 in R3. cbn [http_responses w1] in R3. rewrite answered in R3.
  subst r. destruct W3 as [W3 _].
  destruct (trace w3) as [|e written] eqn:T3; [discriminate|].
  injection W3 as ->.
  destruct (enter_report_run ed f w3) as [added [E4 [K4 [L4 _]]]].
  rewrite ready in K4. destruct f as [|c f]; [contradiction|].
  cbn [PyStr.eqb negb andb] in K4.
  assert (R : report_loop thumbnail (enter_report ed) 1 report_num num_reports
                (mk_world tr po grabs dw file http texts)
              = (add_events
                   ((if report_num <? num_reports - 1
                     then [SendKeys (str "{F4}")] else [])
                    ++ LogMessage (msg_completed report_num) :: added) w3,
                 Ok (true, report_num))).
  { cbn [report_loop].
    unfold io_bind at 1, log_message at 1, emit at 1.
    unfold io_bind at 1, log_message at 1, emit at 1.
    unfold io_bind at 1, log_message at 1, emit at 1.
    unfold io_bind at 1, remove_image_file.
    cbn [trace window_polls clipboard_grabs disk_writable image_file
           http_responses control_texts].
    destruct file as [old|];
      (erewrite io_bind_ok
         by (match goal with
             | |- extract_image ?x = _ => change x with w1
             end; exact E2));
      cbv beta iota;
      (erewrite io_bind_ok by exact E3); cbv beta iota;
      (erewrite io_bind_ok by exact E4);
      unfold log_message, send_keys;
      destruct (report_num <? num_reports - 1); run_emits;
      now rewrite Z.add_simpl_r. }
  rewrite R. eexists.
  exists ((if report_num <? num_reports - 1
           then [SendKeys (str "{F4}")] else [])
          ++ LogMessage (msg_completed report_num) :: added), written.
  split; [reflexivity|]. split; [|split].
  - cbn [add_events trace]. now rewrite T3.
  - rewrite keys_sent_app. cbn [keys_sent]. rewrite K4.
    now destruct (report_num <? num_reports - 1).
  - now destruct (report_num <? num_reports - 1).
Qed.

Lemma completed_round_types_report_text_witness :
  let ed := mk_editor (Some []) (Some (mk_rectangle 40 300 640 500)) in
  exists w' typed written,
    report_loop pillow_thumbnail_size (enter_report ed) 1 0 2
      world_two_reports
    = (w', Ok (true, 0))
    /\ trace w' = typed ++ WriteReport findings_normal :: written
    /\ keys_sent typed
       = [str "^{END}"; str "{ENTER}" ++ escape_for_type_keys findings_normal]
         ++ (if 0 <? 2 - 1 then [str "{F4}"] else [])
    /\ hd_error (filter is_log typed) = Some (LogMessage (msg_completed 0)).
Proof.
  apply (completed_round_types_report_text pillow_thumbnail_size
           (mk_editor (Some []) (Some (mk_rectangle 40 300 640 500)))
           0 2 world_two_reports (mk_image 3000 2000) findings_normal).
  - reflexivity.
  - vm_compute. reflexivity.
  - discriminate.
  - reflexivity.
Defined.

(** ** The request of [analyze_image] *)

Lemma analyze_image_request thumbnail (w : world) (img : image) :
  image_file w = Some img ->
  exists w' r added,
    analyze_image thumbnail w = (w', Ok r)
    /\ trace w' = added ++ trace w
    /\ filter is_http_post added
       = [HttpPost (downscale thumbnail (size img)) prompt]
    /\ http_responses w' = tl (http_responses w).
Proof.
  intros Hf.
  destruct w as [tr po grabs dw file http texts]. cbn [image_file] in Hf.
  subst file.
  unfold analyze_image. unfold io_bind at 1, log_message, emit.
  unfold io_bind at 1, open_image_file.
  cbn [trace window_polls clipboard_grabs disk_writable image_file
         http_responses control_texts].
  unfold io_try, io_bind at 1, post_and_decode.
  cbn [trace window_polls clipboard_grabs disk_writable image_file
         http_responses control_texts].
  assert (Done : forall L (r : option pystr) rest texts',
            (exists added,
               L = added ++ tr
               /\ filter is_http_post added
                  = [HttpPost (downscale thumbnail (size img)) prompt]) ->
            rest = tl http ->
            exists w' r' added,
              (mk_world L po grabs dw (Some img) rest texts', Ok r)
              = (w', Ok r')
              /\ trace w' = added ++ tr
              /\ filter is_http_post added
                 = [HttpPost (downscale thumbnail (size img)) prompt]
              /\ http_responses w' = tl http).
  { intros L r rest texts' [added [-> F]] ->.
    eexists; exists r, added. now repeat split. }
  destruct http as [|[| | |doc] rest]; cbn [hd tl].
  1-4: unfold io_bind, print, emit, ret;
       cbn [trace window_polls clipboard_grabs disk_writable image_file
              http_responses control_texts];
       apply Done; [|reflexivity];
       match goal with
       | |- exists added, ?L = _ /\ _ => let p := new_events L in exists p
       end; split; reflexivity.
  unfold io_bind at 1, lift.
  destruct (extract_content doc) as [content|e].
  2: { unfold io_bind, print, emit, ret;
       cbn [trace window_polls clipboard_grabs disk_writable image_file
              http_responses control_texts];
       apply Done; [|reflexivity];
       match goal with
       | |- exists added, ?L = _ /\ _ => let p := new_events L in exists p
       end; split; reflexivity. }
  unfold io_bind at 1, write_raw_output.
  destruct content as [|b|n|nz rp|s|items|d];
    try rewrite clean_content_paragraph;
    unfold io_bind, print, emit, ret, lift, raise;
    cbn [trace window_polls clipboard_grabs disk_writable image_file
           http_responses control_texts];
    try rewrite clean_content_paragraph;
    apply Done; try reflexivity;
    match goal with
    | |- exists added, ?L = _ /\ _ => let p := new_events L in exists p
    end; split; reflexivity.
Qed.

(** X18. With the image file there, [analyze_image] sends exactly one
    request and takes exactly one answer.  The request carries the fixed
    prompt and, given Pillow's [thumbnail], an image whose longer side is at
    most 1024 pixels and which is no larger than the image on disk. *)
Theorem analyze_image_sends_bounded_image
  (thumbnail : Z * Z -> Z * Z -> Z * Z) (w : world) (img : image)
  (pillow : thumbnail_contract thumbnail)
  (file : image_file w = Some img)
  (width_pos : 1 <= width img) (height_pos : 1 <= height img) :
  exists w' r added sz,
    analyze_image thumbnail w = (w', Ok r)
    /\ trace w' = added ++ trace w
    /\ filter is_http_post added = [HttpPost sz prompt]
    /\ Z.max (fst sz) (snd sz) <= 1024
    /\ 1 <= fst sz <= width img /\ 1 <= snd sz <= height img
    /\ http_responses w' = tl (http_responses w).
Proof.
  destruct (analyze_image_request thumbnail w img file)
    as [w' [r [added [E [T [P H]]]]]].
  exists w', r, added, (downscale thumbnail (size img)).
  pose proof (downscale_under_contract thumbnail (width img) (height img)
                pillow width_pos height_pos) as D.
  unfold size in *.
  destruct (downscale thumbnail (width img, height img)) as [a b].
  cbn [fst snd]. destruct D as [D1 [_ [D2 [D3 _]]]].
  split; [exact E|]. split; [exact T|]. split; [exact P|].
  split; [exact D1|]. split; [exact D2|]. split; [exact D3|exact H].
Qed.

Lemma analyze_image_sends_bounded_image_witness :
  let w := world_with_response (mk_image 3000 2000) (Body JNull) in
  exists w' r added sz,
    analyze_image pillow_thumbnail_size w = (w', Ok r)
    /\ trace w' = added ++ trace w
    /\ filter is_http_post added = [HttpPost sz prompt]
    /\ Z.max (fst sz) (snd sz) <= 1024
    /\ 1 <= fst sz <= 3000 /\ 1 <= snd sz <= 2000
    /\ http_responses w' = tl (http_responses w).
Proof.
  apply (analyze_image_sends_bounded_image pillow_thumbnail_size
           (world_with_response (mk_image 3000 2000) (Body JNull))
           (mk_image 3000 2000) pillow_thumbnail_size_contract eq_refl).
  - cbn. lia.
  - cbn. lia.
Defined.

(** ** The configuration and the main block *)

Lemma lstrip_chars_split (chars s : pystr) :
  exists gone, s = gone ++ lstrip_chars chars s.
Proof.
  induction s as [|c s [gone E]]; [now exists []|].
  cbn [lstrip_chars]. destruct (existsb (N.eqb c) chars).
  - exists (c :: gone). cbn [app]. now f_equal.
  - now exists [].
Qed.

Lemma lstrip_chars_head (chars s : pystr) (c : char) :
  In c chars -> hd 0%N (lstrip_chars chars s) <> c \/ lstrip_chars chars s = [].
Proof.
  intros Hc. induction s as [|d s IH]; [now right|].
  cbn [lstrip_chars]. destruct (existsb (N.eqb d) chars) eqn:Ed; [exact IH|].
  left. cbn [hd]. intros ->.
  assert (existsb (N.eqb c) chars = true)
    by (apply existsb_exists; exists c; split; [exact Hc|apply N.eqb_refl]).
  congruence.
Qed.

Lemma last_rev (l : pystr) (d : char) : last (rev l) d = hd d l.
Proof.
  destruct l as [|c l]; [reflexivity|]. cbn [rev hd]. apply last_last.
Qed.

Lemma rstrip_chars_last (chars s : pystr) (c : char) :
  In c chars -> c <> 0%N -> last (rstrip_chars chars s) 0%N <> c.
Proof.
  intros Hc H0. unfold rstrip_chars. rewrite last_rev.
  destruct (lstrip_chars_head chars (rev s) c Hc) as [H|H]; [exact H|].
  rewrite H. cbn. congruence.
Qed.

Lemma rstrip_chars_prefix (chars s : pystr) :
  exists gone, s = rstrip_chars chars s ++ gone.
Proof.
  destruct (lstrip_chars_split chars (rev s)) as [gone E].
  exists (rev gone). unfold rstrip_chars.
  rewrite <- rev_app_distr, <- E. now rewrite rev_involutive.
Qed.

Lemma rstrip_chars_hd (chars s : pystr) (c : char) :
  c <> 0%N -> hd 0%N s <> c -> hd 0%N (rstrip_chars chars s) <> c.
Proof.
  intros H0 H. destruct (rstrip_chars_prefix chars s) as [gone E].
  destruct (rstrip_chars chars s) as [|d t]; [cbn; congruence|].
  rewrite E in H. exact H.
Qed.

Lemma strip_chars_ends (chars s : pystr) (c : char) :
  In c chars -> c <> 0%N ->
  hd 0%N (strip_chars chars s) <> c /\ last (strip_chars chars s) 0%N <> c.
Proof.
  intros Hc H0. unfold strip_chars. split.
  - apply rstrip_chars_hd; [exact H0|].
    destruct (lstrip_chars_head chars s c Hc) as [H|H]; [exact H|].
    rewrite H. cbn. congruence.
  - now apply rstrip_chars_last.
Qed.

Lemma lstrip_chars_all (q : char) (s : pystr) :
  forallb (N.eqb q) s = true -> lstrip_chars [q] s = [].
Proof.
  induction s as [|c s IH]; [reflexivity|]. cbn [forallb lstrip_chars existsb].
  intros H. apply andb_true_iff in H as [H1 H2].
  rewrite N.eqb_sym, H1. cbn [orb]. now apply IH.
Qed.

Lemma check_credentials_run (environ : pystr -> option pystr) (w : world) :
  if credentials_set environ
  then check_credentials environ w = (w, Ok None)
  else exists err,
         check_credentials environ w = (add_events [Print err] w, Ok (Some 1)).
Proof.
  unfold credentials_set, check_credentials, print.
  destruct (HF_TOKEN environ) as [|c t]; cbn [PyStr.eqb negb andb].
  - eexists. now rewrite io_bind_emit.
  - destruct (HF_ENDPOINT_URL environ) as [|d u]; cbn [PyStr.eqb negb andb].
    + eexists. now rewrite io_bind_emit.
    + reflexivity.
Qed.

(** X19. The token used never starts or ends with a double quote; the
    endpoint URL used never starts with a double quote and never ends with a
    slash.  A token that is made of double quotes only counts as not set.
    The check of the credentials never raises: it lets the run go on when
    both values are not empty and asks for exit code 1 otherwise. *)
Theorem credentials_checked (environ : pystr -> option pystr) (w : world) :
  let token := HF_TOKEN environ in
  let url := HF_ENDPOINT_URL environ in
  (exists w' code,
     check_credentials environ w = (w', Ok code)
     /\ code = (if credentials_set environ then None else Some 1))
  /\ hd 0%N token <> quote /\ last token 0%N <> quote
  /\ hd 0%N url <> quote /\ last url 0%N <> chr "/"
  /\ (if forallb (N.eqb quote) (environ_get environ (str "HF_TOKEN"))
      then credentials_set environ = false else True).
Proof.
  cbv zeta.
  assert (Hq : In quote [quote]) by now left.
  assert (Hs : In (chr "/") [chr "/"]) by now left.
  assert (Q0 : quote <> 0%N) by discriminate.
  assert (S0 : chr "/" <> 0%N) by discriminate.
  split; [|split; [|split; [|split; [|split]]]].
  - pose proof (check_credentials_run environ w) as C.
    destruct (credentials_set environ); [|destruct C as [err C]];
      eexists; eexists; split; try exact C; reflexivity.
  - apply strip_chars_ends; assumption.
  - apply strip_chars_ends; assumption.
  - unfold HF_ENDPOINT_URL. apply rstrip_chars_hd; [exact Q0|].
    apply strip_chars_ends; assumption.
  - unfold HF_ENDPOINT_URL. now apply rstrip_chars_last.
  - destruct (forallb _ _) eqn:H; [|exact I].
    unfold credentials_set, HF_TOKEN, strip_chars.
    now rewrite lstrip_chars_all.
Qed.


(** ** The order of the actions of [extract_image] *)


